(** * A shallow embedding of the device-control and task-execution core

    Sources embedded here:
    - [custom_agent.py]            (DeviceController, MockDeviceController,
                                    TaskExecutor, CustomAgent)
    - [gbox_device_controller.py]  (GBOXDeviceController,
                                    GBOXLocalDeviceController)
    - [device_registration.py]     (DeviceRegistration, GBOXDeviceManager)
    - [android_world_integration.py] (setup_gbox_device, get_device_status,
                                    run_multiple_tasks)
    - [verify_challenges.py]       (print_results)

    Conventions.
    - Python [str] values are Rocq strings whose characters are read as the
      code points 0..255.
    - [time.time()] returns a float; readings are modelled as rationals and
      float subtraction as exact subtraction.
    - Exceptions are values of [exn]; they stand for instances of Python's
      [Exception] class, which is what every [except Exception] clause of
      the sources matches.
    - Calls to [logger] only produce log lines and are left out. *)

From Stdlib Require Import ZArith QArith String Ascii List.
From stdpp Require Import base option list strings gmap pretty.

Local Open Scope string_scope.
Local Open Scope Z_scope.

(** ** Python strings *)

Module PyStr.

(** [str.isspace] on the code points below 256. *)
Definition isspace (c : ascii) : bool :=
  let n := N_of_ascii c in
  ((9 <=? n) && (n <=? 13) || (28 <=? n) && (n <=? 32)
   || (n =? 133) || (n =? 160))%N.

Fixpoint lstrip (s : string) : string :=
  match s with
  | "" => ""
  | String c r => if isspace c then lstrip r else s
  end.

Fixpoint rstrip (s : string) : string :=
  match s with
  | "" => ""
  | String c r =>
      match rstrip r with
      | "" => if isspace c then "" else String c ""
      | r' => String c r'
      end
  end.

(** [s.strip()] *)
Definition strip (s : string) : string := rstrip (lstrip s).

(** Truth value of a string: non-empty. *)
Definition truthy (s : string) : bool :=
  match s with "" => false | _ => true end.

(** [s.startswith(p)] *)
Definition startswith (p s : string) : bool := String.prefix p s.

(** [sub in s] *)
Fixpoint contains (sub s : string) : bool :=
  String.prefix sub s ||
  match s with
  | "" => false
  | String _ r => contains sub r
  end.

(** [s.split(sep)] for a non-empty separator: the pieces between the
    non-overlapping occurrences of [sep], scanned from the left.  [skip]
    counts the characters of a matched separator still to be dropped. *)
Fixpoint split_go (sep : string) (skip : nat) (s : string) : list string :=
  match s with
  | "" => [""]
  | String c r =>
      match skip with
      | S k => split_go sep k r
      | O =>
          if String.prefix sep s
          then "" :: split_go sep (Nat.pred (String.length sep)) r
          else match split_go sep 0 r with
               | h :: t => String c h :: t
               | [] => [String c ""]
               end
      end
  end.

Definition split (sep s : string) : list string := split_go sep 0 s.

(** [s.replace(old, new)] for one-character [old] and [new]. *)
Fixpoint replace (old new : ascii) (s : string) : string :=
  match s with
  | "" => ""
  | String c r =>
      String (if Ascii.eqb c old then new else c) (replace old new r)
  end.

(** [str.lower] on the code points below 256: A-Z and the Latin-1 capitals
    (0xC0-0xDE except the multiplication sign 0xD7) move up by 32. *)
Definition lower_char (c : ascii) : ascii :=
  let n := N_of_ascii c in
  if ((65 <=? n) && (n <=? 90)
      || (192 <=? n) && (n <=? 222) && negb (n =? 215))%N
  then ascii_of_N (n + 32) else c.

Fixpoint lower (s : string) : string :=
  match s with
  | "" => ""
  | String c r => String (lower_char c) (lower r)
  end.

End PyStr.

(** [int(x)] on a float: truncation toward zero. *)
Definition int_of_time (t : Q) : Z := Z.quot (Qnum t) (Z.pos (Qden t)).

(** [str(n)] / f-string formatting of an integer. *)
Definition str_of_int (n : Z) : string := pretty n.

(** ** Exceptions and the state-and-exception monad *)

Record exn := Exn { exn_type : string; exn_msg : string }.

(** [str(e)] *)
Definition str_exn (e : exn) : string := exn_msg e.

Inductive result (A : Type) : Type :=
| Ok (a : A)
| Raise (e : exn).
Arguments Ok {A} a.
Arguments Raise {A} e.

(** A computation over a mutable state [S]: the state reached is kept when
    an exception is raised, as in Python. *)
Definition M (S A : Type) : Type := S → result A * S.

Definition ret {S A} (a : A) : M S A := λ s, (Ok a, s).

Definition bind {S A B} (m : M S A) (k : A → M S B) : M S B :=
  λ s, match m s with
       | (Ok a, s') => k a s'
       | (Raise e, s') => (Raise e, s')
       end.

Definition raise {S A} (e : exn) : M S A := λ s, (Raise e, s).

(** [try: body  except Exception as e: handler(e)] *)
Definition try_except {S A} (body : M S A) (handler : exn → M S A) : M S A :=
  λ s, match body s with
       | (Ok a, s') => (Ok a, s')
       | (Raise e, s') => handler e s'
       end.

Definition get {S} : M S S := λ s, (Ok s, s).
Definition gets {S A} (f : S → A) : M S A := λ s, (Ok (f s), s).
Definition modify {S} (f : S → S) : M S unit := λ s, (Ok tt, f s).

(** Run a computation on a part [T] of the state [S]. *)
Definition zoom {S T A} (proj : S → T) (upd : T → S → S) (m : M T A) : M S A :=
  λ s, let '(r, t) := m (proj s) in (r, upd t s).

Declare Scope py_scope.
Delimit Scope py_scope with py.
Notation "x <- m ;; k" := (bind m (λ x, k))
  (at level 100, m at next level, right associativity) : py_scope.
Notation "m ;;; k" := (bind m (λ _, k))
  (at level 100, right associativity) : py_scope.
Local Open Scope py_scope.

(** ** The outside world *)

(** What [subprocess.run(..., capture_output=True, text=True, timeout=10)]
    can do: complete with an exit code and the captured streams, or raise
    ([TimeoutExpired], [FileNotFoundError], ...). *)
Inductive ProcOutcome :=
| Completed (returncode : Z) (stdout stderr : string)
| ProcRaise (e : exn).

Record CompletedProcess := {
  returncode : Z;
  stdout : string;
  stderr : string
}.

(** The world: a wall clock read by [time.time()] and the device bridge
    behind [subprocess.run].  Both are arbitrary; the n-th reading and the
    n-th invocation may answer anything. *)
Record World := {
  clock : nat → Q;
  clock_reads : nat;
  bridge : nat → list string → ProcOutcome;
  bridge_calls : nat
}.

Definition time_time : M World Q :=
  λ w, (Ok (clock w (clock_reads w)),
        {| clock := clock w; clock_reads := S (clock_reads w);
           bridge := bridge w; bridge_calls := bridge_calls w |}).

(** [time.sleep(secs)]: only the clock, which is arbitrary already, sees it. *)
Definition time_sleep (secs : Q) : M World unit := ret tt.

Definition subprocess_run (args : list string) : M World CompletedProcess :=
  λ w,
    let w' := {| clock := clock w; clock_reads := clock_reads w;
                 bridge := bridge w; bridge_calls := S (bridge_calls w) |} in
    match bridge w (bridge_calls w) args with
    | Completed rc out err =>
        (Ok {| returncode := rc; stdout := out; stderr := err |}, w')
    | ProcRaise e => (Raise e, w')
    end.

(** ** custom_agent.py *)

(** Values of a [Dict[str, Any]] parameter mapping. *)
#[warnings="-register-all"]
Inductive pyval :=
| PNone
| PBool (b : bool)
| PInt (n : Z)
| PStr (s : string)
| PList (l : list pyval).

Record ScreenInfo := {
  width : Z;
  height : Z;
  orientation : string;
  screen_timestamp : Q
}.

(** [class DeviceController(ABC)]: the five operations every backend
    implements.  A backend has a state of its own and sees the world; an
    operation may return or raise. *)
Class DeviceController (C : Type) := {
  click : Z → Z → M (C * World) bool;
  swipe : Z → Z → Z → Z → Z → M (C * World) bool;
  type_text : string → M (C * World) bool;
  press_key : string → M (C * World) bool;
  get_screen_info : M (C * World) ScreenInfo
}.

(** [class MockDeviceController(DeviceController)]: no fields. *)
Inductive MockDeviceController := MockDevice.

#[export] Instance Mock_DeviceController : DeviceController MockDeviceController := {
  click _ _ := ret true;
  swipe _ _ _ _ _ := ret true;
  type_text _ := ret true;
  press_key _ := ret true;
  get_screen_info :=
    t <- zoom snd (λ w s, (fst s, w)) time_time ;;
    ret {| width := 1080; height := 2400; orientation := "portrait";
           screen_timestamp := t |}
}.

(** One entry of [task_history]. *)
Record TaskResult := {
  task_name : string;
  success : bool;
  execution_time : Q;
  error_message : option string;
  timestamp : Q
}.

(** The calls a task executor makes on its controller, in order. *)
Inductive DeviceOp :=
| OpClick (x y : Z)
| OpSwipe (start_x start_y end_x end_y duration : Z)
| OpTypeText (text : string)
| OpPressKey (key : string)
| OpGetScreenInfo.

Section TaskExecutor.

Context {C : Type} `{DeviceController C}.

(** A [TaskExecutor] object ([device_controller], [task_history]) in its
    world, with the record [device_ops] of the controller operations it
    has invoked. *)
Record ExecState := {
  device_controller : C;
  task_history : list TaskResult;
  world : World;
  device_ops : list DeviceOp
}.

(** [TaskExecutor.__init__] *)
Definition TaskExecutor_init (c : C) (w : World) : ExecState :=
  {| device_controller := c; task_history := []; world := w;
     device_ops := [] |}.

Definition in_world {A} (m : M World A) : M ExecState A :=
  zoom world
    (λ w s, {| device_controller := device_controller s;
               task_history := task_history s; world := w;
               device_ops := device_ops s |}) m.

(** [self.device_controller.<op>(...)] *)
Definition invoke {A} (op : DeviceOp) (m : M (C * World) A) : M ExecState A :=
  λ s, let '(r, (c, w)) := m (device_controller s, world s) in
       (r, {| device_controller := c; task_history := task_history s;
              world := w; device_ops := device_ops s ++ [op] |}).

Definition _execute_recipe_task (params : gmap string pyval) : M ExecState bool :=
  invoke (OpClick 500 1200) (click 500 1200) ;;;
  in_world (time_sleep 1) ;;;
  invoke (OpTypeText "Test Recipe") (type_text "Test Recipe") ;;;
  in_world (time_sleep 1) ;;;
  invoke (OpClick 500 1400) (click 500 1400) ;;;
  ret true.

Definition _execute_calendar_task (params : gmap string pyval) : M ExecState bool :=
  invoke (OpClick 500 1200) (click 500 1200) ;;;
  in_world (time_sleep 1) ;;;
  invoke (OpTypeText "Test Event") (type_text "Test Event") ;;;
  in_world (time_sleep 1) ;;;
  invoke (OpClick 500 1400) (click 500 1400) ;;;
  ret true.

Definition _execute_generic_task (task_name : string)
    (params : gmap string pyval) : M ExecState bool :=
  ret true.

(** The body of the [try] block of [execute_task]. *)
Definition dispatch (task_name : string) (task_params : gmap string pyval)
    : M ExecState bool :=
  if String.eqb task_name "RecipeAddMultipleRecipes"
  then _execute_recipe_task task_params
  else if String.eqb task_name "SimpleCalendarAddOneEvent"
  then _execute_calendar_task task_params
  else _execute_generic_task task_name task_params.

Definition append_history (r : TaskResult) : M ExecState unit :=
  modify (λ s, {| device_controller := device_controller s;
                  task_history := task_history s ++ [r];
                  world := world s; device_ops := device_ops s |}).

Definition execute_task (task_name : string) (task_params : gmap string pyval)
    : M ExecState TaskResult :=
  start_time <- in_world time_time ;;
  let success := false in
  let error_message := None in
  outcome <- try_except
               (success <- dispatch task_name task_params ;;
                ret (success, error_message))
               (λ e, ret (success, Some (str_exn e))) ;;
  end_time <- in_world time_time ;;
  let execution_time := (end_time - start_time)%Q in
  let result := {| task_name := task_name;
                   success := fst outcome;
                   execution_time := execution_time;
                   error_message := snd outcome;
                   timestamp := start_time |} in
  append_history result ;;;
  ret result.

(** The state in which the handler of a call starts: the start time has
    been read. *)
Definition handler_start (s : ExecState) : ExecState :=
  snd (in_world time_time s).

(** Several calls of [execute_task], one after the other. *)
Fixpoint execute_tasks (calls : list (string * gmap string pyval))
    : M ExecState (list TaskResult) :=
  match calls with
  | [] => ret []
  | (task_name, task_params) :: rest =>
      r <- execute_task task_name task_params ;;
      rs <- execute_tasks rest ;;
      ret (r :: rs)
  end.

(** [CustomAgent.run_task] and [CustomAgent.get_task_history]: the agent
    hands the task to its executor; the result is only logged. *)
Definition run_task (task_name : string) (task_params : option (gmap string pyval))
    : M ExecState TaskResult :=
  let task_params := default ∅ task_params in
  execute_task task_name task_params.

Definition get_task_history : M ExecState (list TaskResult) :=
  gets task_history.

End TaskExecutor.

Arguments ExecState C : clear implicits.

(** ** device_registration.py *)

Definition NL : string := String "010"%char "".
Definition TAB : string := String "009"%char "".

(** [a, b = l]: unpacking into exactly two names. *)
Definition unpack2 {S A} (l : list A) : M S (A * A) :=
  match l with
  | [a; b] => ret (a, b)
  | _ :: _ :: _ :: _ =>
      raise (Exn "ValueError" "too many values to unpack (expected 2)")
  | _ => raise (Exn "ValueError" "not enough values to unpack (expected 2)")
  end.

(** [l[i]] *)
Definition subscript {S A} (l : list A) (i : nat) : M S A :=
  match l !! i with
  | Some a => ret a
  | None => raise (Exn "IndexError" "list index out of range")
  end.

(** An entry of the list [get_connected_devices] returns:
    [{'id': ..., 'status': ..., 'type': ...}]. *)
Record ConnectedDevice := {
  dev_id : string;
  dev_status : string;
  dev_type : string
}.

(** The dictionary [get_device_info] builds; keys that were never assigned
    are absent ([None] for ['screen_size'], no binding in ['properties']). *)
Record DeviceInfo := {
  info_id : string;
  info_type : string;
  properties : gmap string string;
  screen_size : option string
}.

(** What [get_device_info] returns: the dictionary above, or
    [{'id': ..., 'error': ...}] from its outer handler. *)
Inductive DeviceInfoResult :=
| Info (info : DeviceInfo)
| InfoError (id error : string).

(** A value of [registered_devices]. *)
Record RegistrationRecord := {
  gbox_device_id : string;
  registration_time : Q;
  status : string
}.

Section DeviceRegistration.

(** [self.adb_path], fixed by [__init__]. *)
Variable adb_path : string.

Definition _get_device_type (device_id : string) : M World string :=
  try_except
    (if PyStr.startswith "emulator-" device_id then ret "emulator"
     else
       result <- subprocess_run
         [adb_path; "-s"; device_id; "shell"; "getprop"; "ro.product.model"] ;;
       if returncode result =? 0 then
         let model := PyStr.strip (stdout result) in
         if PyStr.contains "sdk" (PyStr.lower model)
            || PyStr.contains "emulator" (PyStr.lower model)
         then ret "emulator"
         else ret "physical"
       else ret "unknown")
    (λ e, ret "unknown").

(** One pass of the [for line in lines] loop of [get_connected_devices]. *)
Definition scan_line (devices : list ConnectedDevice) (line : string)
    : M World (list ConnectedDevice) :=
  if PyStr.truthy (PyStr.strip line) && PyStr.contains TAB line then
    fields <- unpack2 (PyStr.split TAB line) ;;
    let device_id := fst fields in
    let status := snd fields in
    if String.eqb status "device" then
      ty <- _get_device_type device_id ;;
      ret (devices ++ [{| dev_id := device_id; dev_status := status;
                          dev_type := ty |}])%list
    else ret devices
  else ret devices.

Fixpoint scan_lines (devices : list ConnectedDevice) (lines : list string)
    : M World (list ConnectedDevice) :=
  match lines with
  | [] => ret devices
  | line :: rest =>
      devices' <- scan_line devices line ;;
      scan_lines devices' rest
  end.

Definition get_connected_devices : M World (list ConnectedDevice) :=
  try_except
    (result <- subprocess_run [adb_path; "devices"] ;;
     if negb (returncode result =? 0) then ret []
     else
       let lines := tail (PyStr.split NL (PyStr.strip (stdout result))) in
       scan_lines [] lines)
    (λ e, ret []).

(** The five properties [get_device_info] asks for. *)
Definition property_names : list string :=
  ["ro.product.model"; "ro.product.brand"; "ro.product.name";
   "ro.build.version.release"; "ro.build.version.sdk"].

(** One pass of the [for prop in properties] loop, on
    [info['properties']]. *)
Definition query_property (device_id : string) (props : gmap string string)
    (prop : string) : M World (gmap string string) :=
  try_except
    (result <- subprocess_run
       [adb_path; "-s"; device_id; "shell"; "getprop"; prop] ;;
     if returncode result =? 0
     then ret (<[prop := PyStr.strip (stdout result)]> props)
     else ret props)
    (λ e, ret (<[prop := "unknown"]> props)).

Fixpoint query_properties (device_id : string) (props : gmap string string)
    (names : list string) : M World (gmap string string) :=
  match names with
  | [] => ret props
  | prop :: rest =>
      props' <- query_property device_id props prop ;;
      query_properties device_id props' rest
  end.

(** The screen-dimension block, on [info['screen_size']]. *)
Definition query_screen_size (device_id : string) (size0 : option string)
    : M World (option string) :=
  try_except
    (result <- subprocess_run
       [adb_path; "-s"; device_id; "shell"; "wm"; "size"] ;;
     if returncode result =? 0 then
       let size_output := PyStr.strip (stdout result) in
       if PyStr.contains "Physical size:" size_output then
         size <- subscript (PyStr.split "Physical size: " size_output) 1 ;;
         ret (Some size)
       else ret size0
     else ret size0)
    (λ e, ret (Some "unknown")).

Definition get_device_info (device_id : string) : M World DeviceInfoResult :=
  try_except
    (ty <- _get_device_type device_id ;;
     props <- query_properties device_id ∅ property_names ;;
     size <- query_screen_size device_id None ;;
     ret (Info {| info_id := device_id; info_type := ty;
                  properties := props; screen_size := size |}))
    (λ e, ret (InfoError device_id (str_exn e))).

Definition install_gbox_agent (device_id : string) : M World bool :=
  try_except
    (result <- subprocess_run
       [adb_path; "-s"; device_id; "shell"; "pm"; "list"; "packages";
        "ai.gbox.agent"] ;;
     if PyStr.contains "ai.gbox.agent" (stdout result) then ret true
     else ret true)
    (λ e, ret false).

(** A [DeviceRegistration] object's mutable part, in its world. *)
Record RegState := {
  registered_devices : gmap string RegistrationRecord;
  reg_world : World
}.

(** [DeviceRegistration.__init__] *)
Definition DeviceRegistration_init (w : World) : RegState :=
  {| registered_devices := ∅; reg_world := w |}.

Definition reg_in_world {A} (m : M World A) : M RegState A :=
  zoom reg_world
    (λ w s, {| registered_devices := registered_devices s; reg_world := w |})
    m.

Definition register_with_gbox (device_id gbox_api_key : string)
    : M RegState (option string) :=
  try_except
    (installed <- reg_in_world (install_gbox_agent device_id) ;;
     if negb installed then ret None
     else
       now <- reg_in_world time_time ;;
       let gbox_device_id :=
         "gbox_" +:+ PyStr.replace "-" "_" device_id +:+ "_"
                 +:+ str_of_int (int_of_time now) in
       registration_time <- reg_in_world time_time ;;
       modify (λ s,
         {| registered_devices :=
              <[device_id := {| gbox_device_id := gbox_device_id;
                                registration_time := registration_time;
                                status := "registered" |}]>
                (registered_devices s);
            reg_world := reg_world s |}) ;;;
       ret (Some gbox_device_id))
    (λ e, ret None).

(** [get_registration_status]: the stored record, or
    [{'status': 'not_registered'}] ([None] here). *)
Definition get_registration_status (device_id : string)
    : M RegState (option RegistrationRecord) :=
  gets (λ s, registered_devices s !! device_id).

End DeviceRegistration.

(** ** gbox_device_controller.py *)

(** *** Classes, as Python builds them *)

(** What a name is bound to in a class body. *)
Inductive method :=
| AbstractMethod      (** a [def] under [@abstractmethod] *)
| ConcreteMethod      (** a plain [def] *)
| ObjectInit          (** [object.__init__] *)
| ObjectNew.          (** [object.__new__] *)

(** A class statement: name, whether it names [ABCMeta] as metaclass, the
    names its body binds, and its one base. *)
#[warnings="-register-all"]
Inductive pyclass :=
| PyClass (name : string) (abcmeta : bool)
          (namespace : list (string * method)) (base : option pyclass).

Definition class_name (c : pyclass) : string :=
  match c with PyClass name _ _ _ => name end.

Definition class_namespace (c : pyclass) : list (string * method) :=
  match c with PyClass _ _ ns _ => ns end.

Definition class_base (c : pyclass) : option pyclass :=
  match c with PyClass _ _ _ base => base end.

(** The method resolution order of a single-inheritance chain. *)
Fixpoint mro (c : pyclass) : list pyclass :=
  match c with
  | PyClass _ _ _ base =>
      c :: match base with Some b => mro b | None => [] end
  end.

(** The metaclass is inherited. *)
Fixpoint has_abcmeta (c : pyclass) : bool :=
  match c with
  | PyClass _ abcmeta _ base =>
      abcmeta || match base with Some b => has_abcmeta b | None => false end
  end.

Fixpoint assoc (name : string) (ns : list (string * method)) : option method :=
  match ns with
  | [] => None
  | (n, m) :: rest => if String.eqb n name then Some m else assoc name rest
  end.

Fixpoint lookup_mro (name : string) (cs : list pyclass) : option method :=
  match cs with
  | [] => None
  | c :: rest =>
      match assoc name (class_namespace c) with
      | Some m => Some m
      | None => lookup_mro name rest
      end
  end.

(** [getattr(cls, name, None)] *)
Definition class_getattr (c : pyclass) (name : string) : option method :=
  lookup_mro name (mro c).

Definition is_abstract (m : option method) : bool :=
  match m with Some AbstractMethod => true | _ => false end.

(** [cls.__abstractmethods__] as [ABCMeta.__new__] computes it: the names
    the body binds to abstract methods, and the abstract names of the base
    that still resolve to an abstract method on the new class.  The set is
    kept as a list without repetitions. *)
Fixpoint abstractmethods (c : pyclass) : list string :=
  match c with
  | PyClass _ _ ns base =>
      if has_abcmeta c then
        let own := map fst (filter (λ d, is_abstract (Some (snd d)) = true) ns) in
        let inherited :=
          match base with
          | Some b =>
              filter (λ name, is_abstract (class_getattr c name) = true
                              ∧ name ∉ own)
                     (abstractmethods b)
          | None => []
          end in
        (own ++ inherited)%list
      else []
  end.

Definition cls_object : pyclass :=
  PyClass "object" false
    [("__init__", ObjectInit); ("__new__", ObjectNew)] None.

Definition cls_ABC : pyclass :=
  PyClass "ABC" true [] (Some cls_object).

Definition cls_DeviceController : pyclass :=
  PyClass "DeviceController" false
    [("click", AbstractMethod); ("swipe", AbstractMethod);
     ("type_text", AbstractMethod); ("press_key", AbstractMethod);
     ("get_screen_info", AbstractMethod)]
    (Some cls_ABC).

Definition cls_MockDeviceController : pyclass :=
  PyClass "MockDeviceController" false
    [("click", ConcreteMethod); ("swipe", ConcreteMethod);
     ("type_text", ConcreteMethod); ("press_key", ConcreteMethod);
     ("get_screen_info", ConcreteMethod)]
    (Some cls_DeviceController).

Definition cls_GBOXDeviceController : pyclass :=
  PyClass "GBOXDeviceController" false
    [("__init__", ConcreteMethod); ("_initialize_gbox", ConcreteMethod);
     ("click", ConcreteMethod); ("type_text", ConcreteMethod);
     ("swipe", ConcreteMethod); ("get_screen_text", ConcreteMethod);
     ("take_screenshot", ConcreteMethod); ("is_connected", ConcreteMethod);
     ("get_device_info", ConcreteMethod)]
    (Some cls_DeviceController).

Definition cls_GBOXLocalDeviceController : pyclass :=
  PyClass "GBOXLocalDeviceController" false
    [("__init__", ConcreteMethod); ("_initialize_local_gbox", ConcreteMethod);
     ("click", ConcreteMethod); ("type_text", ConcreteMethod);
     ("swipe", ConcreteMethod); ("get_screen_text", ConcreteMethod);
     ("take_screenshot", ConcreteMethod); ("is_connected", ConcreteMethod);
     ("get_device_info", ConcreteMethod)]
    (Some cls_DeviceController).

(** *** Objects and the remote SDK *)

(** Values held in instance attributes and passed to the SDK. *)
Inductive attrval :=
| ANone
| AStr (s : string)
| AClient (handle : nat)
| ADevice (handle : nat).

Definition truthy_val (v : attrval) : bool :=
  match v with
  | ANone => false
  | AStr s => PyStr.truthy s
  | _ => true
  end.

(** The backend calls the constructors make. *)
Inductive SdkCall :=
| NewClient (api_key : attrval)                         (** [GBoxClient(api_key=...)] *)
| GetDevice (client device_id : attrval)                (** [client.get_device(...)] *)
| RegisterLocalDevice (client device_id : attrval).     (** [client.register_local_device(...)] *)

(** The process a controller is constructed in: the environment variables,
    whether [gbox_sdk] could be imported, the SDK (the n-th call may raise
    or return), the calls made so far, and the [__dict__] of the instance
    under construction. *)
Record PyState := {
  environ : gmap string string;
  GBOX_AVAILABLE : bool;
  sdk : nat → SdkCall → option exn;
  sdk_calls : list SdkCall;
  self : gmap string attrval
}.

Definition set_self (d : gmap string attrval) (s : PyState) : PyState :=
  {| environ := environ s; GBOX_AVAILABLE := GBOX_AVAILABLE s; sdk := sdk s;
     sdk_calls := sdk_calls s; self := d |}.

(** [os.getenv(name)] *)
Definition os_getenv (name : string) : M PyState attrval :=
  gets (λ s, match environ s !! name with
             | Some v => AStr v
             | None => ANone
             end).

(** [self.name = v] *)
Definition setattr (name : string) (v : attrval) : M PyState unit :=
  modify (λ s, set_self (<[name := v]> (self s)) s).

(** [self.name], for a name that no class in the chain binds. *)
Definition getattr (cls : pyclass) (name : string) : M PyState attrval :=
  s <- get ;;
  match self s !! name with
  | Some v => ret v
  | None =>
      raise (Exn "AttributeError"
                 ("'" +:+ class_name cls +:+ "' object has no attribute '"
                      +:+ name +:+ "'"))
  end.

Definition sdk_call (call : SdkCall) (value : nat → attrval) : M PyState attrval :=
  λ s,
    let n := length (sdk_calls s) in
    let s' := {| environ := environ s; GBOX_AVAILABLE := GBOX_AVAILABLE s;
                 sdk := sdk s; sdk_calls := sdk_calls s ++ [call];
                 self := self s |} in
    match sdk s n call with
    | Some e => (Raise e, s')
    | None => (Ok (value n), s')
    end.

(** [object.__init__] with the arguments [args] after [self], reached from a class that defines an
    [__init__] of its own: any extra argument is an error. *)
Definition object_init (args : list attrval) : M PyState unit :=
  match args with
  | [] => ret tt
  | _ :: _ =>
      raise (Exn "TypeError"
        "object.__init__() takes exactly one argument (the instance to initialize)")
  end.

(** [super().__init__] applied to [args], written in the body of [cls]: the first
    [__init__] after [cls] in the resolution order.  Above the controllers
    only [object] binds [__init__]; an initializer written in this program
    would run in the second branch. *)
Definition super_init (cls : pyclass) (args : list attrval) : M PyState unit :=
  match lookup_mro "__init__" (tail (mro cls)) with
  | Some ObjectInit => object_init args
  | Some _ => ret tt
  | None =>
      raise (Exn "AttributeError" "'super' object has no attribute '__init__'")
  end.

(** [cls(...)]: [object.__new__] refuses a class whose
    [__abstractmethods__] is not empty; otherwise a fresh instance is
    initialised by [init]. *)
Definition instantiate (cls : pyclass) (init : M PyState unit)
    : M PyState (gmap string attrval) :=
  match abstractmethods cls with
  | [] =>
      modify (set_self ∅) ;;;
      init ;;;
      gets self
  | _ :: _ =>
      raise (Exn "TypeError"
                 ("Can't instantiate abstract class " +:+ class_name cls))
  end.

(** *** GBOXDeviceController *)

Definition _initialize_gbox : M PyState unit :=
  try_except
    (api_key <- getattr cls_GBOXDeviceController "gbox_api_key" ;;
     client <- sdk_call (NewClient api_key) AClient ;;
     setattr "client" client ;;;
     client <- getattr cls_GBOXDeviceController "client" ;;
     device_id <- getattr cls_GBOXDeviceController "device_id" ;;
     device <- sdk_call (GetDevice client device_id) ADevice ;;
     setattr "device" device)
    (λ e, raise e).

(** The statements of [__init__] after the [super().__init__] call. *)
Definition GBOXDeviceController_init_body (gbox_api_key : option string)
    : M PyState unit :=
  let arg := match gbox_api_key with Some k => AStr k | None => ANone end in
  key <- (if truthy_val arg then ret arg else os_getenv "GBOX_API_KEY") ;;
  setattr "gbox_api_key" key ;;;
  setattr "client" ANone ;;;
  setattr "device" ANone ;;;
  key <- getattr cls_GBOXDeviceController "gbox_api_key" ;;
  if negb (truthy_val key) then
    raise (Exn "ValueError" "GBOX_API_KEY environment variable required")
  else
    available <- gets GBOX_AVAILABLE ;;
    if available then _initialize_gbox
    else raise (Exn "RuntimeError" "GBOX SDK not available").

Definition GBOXDeviceController_init (device_id : string)
    (gbox_api_key : option string) : M PyState unit :=
  super_init cls_GBOXDeviceController [AStr device_id] ;;;
  GBOXDeviceController_init_body gbox_api_key.

(** [GBOXDeviceController(device_id, gbox_api_key)] *)
Definition new_GBOXDeviceController (device_id : string)
    (gbox_api_key : option string) : M PyState (gmap string attrval) :=
  instantiate cls_GBOXDeviceController
    (GBOXDeviceController_init device_id gbox_api_key).

(** *** GBOXLocalDeviceController *)

Definition _initialize_local_gbox : M PyState unit :=
  try_except
    (api_key <- getattr cls_GBOXLocalDeviceController "gbox_api_key" ;;
     client <- sdk_call (NewClient api_key) AClient ;;
     setattr "client" client ;;;
     client <- getattr cls_GBOXLocalDeviceController "client" ;;
     device_id <- getattr cls_GBOXLocalDeviceController "device_id" ;;
     device <- sdk_call (RegisterLocalDevice client device_id) ADevice ;;
     setattr "device" device)
    (λ e, raise e).

Definition GBOXLocalDeviceController_init_body (gbox_api_key : option string)
    : M PyState unit :=
  let arg := match gbox_api_key with Some k => AStr k | None => ANone end in
  key <- (if truthy_val arg then ret arg else os_getenv "GBOX_API_KEY") ;;
  setattr "gbox_api_key" key ;;;
  setattr "client" ANone ;;;
  setattr "device" ANone ;;;
  key <- getattr cls_GBOXLocalDeviceController "gbox_api_key" ;;
  if negb (truthy_val key) then
    raise (Exn "ValueError" "GBOX_API_KEY environment variable required")
  else
    available <- gets GBOX_AVAILABLE ;;
    if available then _initialize_local_gbox
    else raise (Exn "RuntimeError" "GBOX SDK not available").

Definition GBOXLocalDeviceController_init (device_id : string)
    (gbox_api_key : option string) : M PyState unit :=
  super_init cls_GBOXLocalDeviceController [AStr device_id] ;;;
  GBOXLocalDeviceController_init_body gbox_api_key.

(** [GBOXLocalDeviceController(device_id, gbox_api_key)] *)
Definition new_GBOXLocalDeviceController (device_id : string)
    (gbox_api_key : option string) : M PyState (gmap string attrval) :=
  instantiate cls_GBOXLocalDeviceController
    (GBOXLocalDeviceController_init device_id gbox_api_key).

(** [hasattr(obj, name)] for an instance of [cls] with [__dict__] [d]. *)
Definition hasattr (cls : pyclass) (d : gmap string attrval) (name : string)
    : bool :=
  match d !! name with
  | Some _ => true
  | None => match class_getattr cls name with Some _ => true | None => false end
  end.

(** ** Reference readings and sample inputs *)

(** The world after [n] more invocations of the bridge. *)
Definition advance (n : nat) (w : World) : World :=
  {| clock := clock w; clock_reads := clock_reads w;
     bridge := bridge w; bridge_calls := n + bridge_calls w |}.

(** The world after [n] more readings of the clock. *)
Definition tick (n : nat) (w : World) : World :=
  {| clock := clock w; clock_reads := n + clock_reads w;
     bridge := bridge w; bridge_calls := bridge_calls w |}.

(** The bridge invocation returned (with whatever exit code) rather than
    raised. *)
Definition completes (o : ProcOutcome) : bool :=
  match o with
  | Completed _ _ _ => true
  | ProcRaise _ => false
  end.

(** The lines of a bridge listing after its first (header) line, the
    listing taken without its leading and trailing whitespace. *)
Definition listing_rows (out : string) : list string :=
  tail (PyStr.split NL (PyStr.strip out)).

(** A row read as device id and status, when it has exactly these two
    tab-separated fields. *)
Definition row_fields (row : string) : option (string * string) :=
  match PyStr.split TAB row with
  | [device_id; status] => Some (device_id, status)
  | _ => None
  end.

(** The id and status of an entry of the returned list. *)
Definition device_fields (d : ConnectedDevice) : string * string :=
  (dev_id d, dev_status d).

(** The ready devices of a listing: the id/status rows whose status is
    ["device"], in the order of the listing. *)
Definition ready_rows (rows : list string) : list (string * string) :=
  filter (λ fields, snd fields = "device") (omap row_fields rows).

(** The number of the bridge invocation that asks for the first property
    in [get_device_info]: the type check before it asks the bridge once,
    unless the id starts with ["emulator-"]. *)
Definition first_property_call (device_id : string) (w : World) : nat :=
  ((if PyStr.startswith "emulator-" device_id then 0 else 1) + bridge_calls w)%nat.

(** What a property query leaves in [info['properties'][prop]], given what
    was there. *)
Definition property_field (o : ProcOutcome) (old : option string)
    : option string :=
  match o with
  | Completed rc out _ => if rc =? 0 then Some (PyStr.strip out) else old
  | ProcRaise _ => Some "unknown"
  end.

(** The session id [register_with_gbox] builds from a device id and a
    clock reading. *)
Definition session_id (device_id : string) (now : Q) : string :=
  "gbox_" +:+ PyStr.replace "-" "_" device_id +:+ "_"
          +:+ str_of_int (int_of_time now).

(** The bridge invocation of [install_gbox_agent]. *)
Definition package_query (adb_path device_id : string) : list string :=
  [adb_path; "-s"; device_id; "shell"; "pm"; "list"; "packages";
   "ai.gbox.agent"].

(** A world whose bridge answers by the command line alone and whose clock
    is given. *)
Definition stub_world (answer : list string → ProcOutcome) (time : nat → Q)
    : World :=
  {| clock := time; clock_reads := 0;
     bridge := λ _, answer; bridge_calls := 0 |}.

(** A listing with two ready devices and one that is offline. *)
Definition stub_listing : string :=
  "List of devices attached" +:+ NL
  +:+ "emulator-5554" +:+ TAB +:+ "device" +:+ NL
  +:+ "R58M42ABCDE" +:+ TAB +:+ "offline" +:+ NL
  +:+ "emulator-5556" +:+ TAB +:+ "device" +:+ NL +:+ NL.

(** A listing whose offline row carries a third column. *)
Definition wide_listing : string :=
  "List of devices attached" +:+ NL
  +:+ "emulator-5554" +:+ TAB +:+ "device" +:+ NL
  +:+ "R58M42ABCDE" +:+ TAB +:+ "offline" +:+ TAB +:+ "usb:1-1" +:+ NL.

(** A bridge that lists [listing] and answers every other query with exit
    code 0 and [reply]. *)
Definition listing_bridge (listing reply : string) (args : list string)
    : ProcOutcome :=
  match args with
  | [_; "devices"] => Completed 0 listing ""
  | _ => Completed 0 reply ""
  end.

(** A bridge on which the query for the model exits with code 1. *)
Definition model_fails_bridge (args : list string) : ProcOutcome :=
  match args with
  | [_; "-s"; _; "shell"; "getprop"; "ro.product.model"] =>
      Completed 1 "" "error: closed"
  | [_; "-s"; _; "shell"; "getprop"; _] => Completed 0 ("Pixel" +:+ NL) ""
  | _ => Completed 0 "Physical size: 1080x2400" ""
  end.

(** A clock that advances by a quarter of a second per reading. *)
Definition quarter_clock (n : nat) : Q := (1700000000 + inject_Z (Z.of_nat n) / 4)%Q.

(** A clock that advances by one second per reading. *)
Definition second_clock (n : nat) : Q := (1700000000 + inject_Z (Z.of_nat n))%Q.

(** A controller whose [type_text] raises. *)
Inductive BrokenKeyboard := BrokenKeyboardDevice.

#[export] Instance BrokenKeyboard_DeviceController : DeviceController BrokenKeyboard := {
  click _ _ := ret true;
  swipe _ _ _ _ _ := ret true;
  type_text _ := raise (Exn "RuntimeError" "keyboard not available");
  press_key _ := ret true;
  get_screen_info :=
    ret {| width := 1080; height := 2400; orientation := "portrait";
           screen_timestamp := 0 |}
}.

(** A process without the API key in its environment, with the SDK
    importable and never failing. *)
Definition no_key_process : PyState :=
  {| environ := ∅; GBOX_AVAILABLE := true; sdk := λ _ _, None;
     sdk_calls := []; self := ∅ |}.

(** ** device_registration.py, the device manager *)

(** An entry of the list [get_available_devices] returns:
    [{**device_info, 'connected': True, 'registration': ...}]. *)
Record AvailableDevice := {
  avail_info : DeviceInfoResult;
  avail_connected : bool;
  avail_registration : option RegistrationRecord
}.

(** The ['id'] entry of the dictionary [get_device_info] returns. *)
Definition info_result_id (r : DeviceInfoResult) : string :=
  match r with
  | Info info => info_id info
  | InfoError id _ => id
  end.

Section GBOXDeviceManager.

(** [self.adb_path] and [self.gbox_api_key]; [self.registration] is the
    state. *)
Variable adb_path gbox_api_key : string.

Definition setup_emulator_for_gbox (emulator_id : string)
    : M RegState (option string) :=
  try_except
    (devices <- reg_in_world (get_connected_devices adb_path) ;;
     let emulator_devices :=
       filter (λ d, dev_id d = emulator_id) devices in
     match emulator_devices with
     | [] => ret None
     | emulator_device :: _ =>
         device_info <- reg_in_world (get_device_info adb_path emulator_id) ;;
         gbox_device_id <-
           register_with_gbox adb_path emulator_id gbox_api_key ;;
         match gbox_device_id with
         | Some g => if PyStr.truthy g then ret (Some g) else ret None
         | None => ret None
         end
     end)
    (λ e, ret None).

(** The [for device in connected_devices] loop of
    [get_available_devices]. *)
Fixpoint available_devices_loop (connected_devices : list ConnectedDevice)
    (available_devices : list AvailableDevice)
    : M RegState (list AvailableDevice) :=
  match connected_devices with
  | [] => ret available_devices
  | device :: rest =>
      device_info <- reg_in_world (get_device_info adb_path (dev_id device)) ;;
      registration_status <- get_registration_status (dev_id device) ;;
      available_devices_loop rest
        (available_devices
           ++ [{| avail_info := device_info; avail_connected := true;
                  avail_registration := registration_status |}])
  end.

Definition get_available_devices : M RegState (list AvailableDevice) :=
  connected_devices <- reg_in_world (get_connected_devices adb_path) ;;
  available_devices_loop connected_devices [].

End GBOXDeviceManager.

(** ** custom_agent.py, the agent *)

(** The dictionary [get_status] returns. *)
Record AgentStatus := {
  status_agent_id : string;
  status_text : string;
  tasks_executed : nat;
  device_connected : bool;
  status_timestamp : Q
}.

Section CustomAgent.

Context {C : Type} `{DeviceController C}.

(** A [CustomAgent] object: its id and its executor, which holds the
    controller the agent was given. *)
Record CustomAgent := {
  agent_id : string;
  task_executor : ExecState C
}.

(** [CustomAgent.__init__] with a controller, in the world [w]. *)
Definition CustomAgent_init (device_controller : C) (w : World) : CustomAgent :=
  let now := clock w (clock_reads w) in
  {| agent_id := "custom_agent_" +:+ str_of_int (int_of_time now);
     task_executor := TaskExecutor_init device_controller (snd (time_time w)) |}.

Definition in_executor {A} (m : M (ExecState C) A) : M CustomAgent A :=
  zoom task_executor (λ e a, {| agent_id := agent_id a; task_executor := e |}) m.

(** [CustomAgent.run_task] *)
Definition agent_run_task (task_name : string)
    (task_params : option (gmap string pyval)) : M CustomAgent TaskResult :=
  in_executor (run_task task_name task_params).

(** [CustomAgent.get_status] *)
Definition get_status : M CustomAgent AgentStatus :=
  a <- get ;;
  now <- in_executor (in_world time_time) ;;
  ret {| status_agent_id := agent_id a;
         status_text := "active";
         tasks_executed := length (task_history (task_executor a));
         device_connected := true;
         status_timestamp := now |}.

(** Several calls of [run_task], one after the other. *)
Fixpoint agent_run_tasks (calls : list (string * option (gmap string pyval)))
    : M CustomAgent (list TaskResult) :=
  match calls with
  | [] => ret []
  | (task_name, task_params) :: rest =>
      r <- agent_run_task task_name task_params ;;
      rs <- agent_run_tasks rest ;;
      ret (r :: rs)
  end.

End CustomAgent.

Arguments CustomAgent C : clear implicits.

(** [CustomAgent()] without a controller: the mock one. *)
Definition CustomAgent_default (w : World) : CustomAgent MockDeviceController :=
  CustomAgent_init MockDevice w.

(** A controller whose operations all report failure ([False]) without
    raising. *)
Inductive RefusingController := RefusingDevice.

#[export] Instance Refusing_DeviceController : DeviceController RefusingController := {
  click _ _ := ret false;
  swipe _ _ _ _ _ := ret false;
  type_text _ := ret false;
  press_key _ := ret false;
  get_screen_info :=
    ret {| width := 0; height := 0; orientation := "portrait";
           screen_timestamp := 0 |}
}.

(** The kinds [_get_device_type] can answer. *)
Definition device_kinds : list string := ["emulator"; "physical"; "unknown"].

(** The bridge invocations of [_get_device_type] and of the screen-size
    block of [get_device_info]. *)
Definition model_query (adb_path device_id : string) : list string :=
  [adb_path; "-s"; device_id; "shell"; "getprop"; "ro.product.model"].

Definition size_query (adb_path device_id : string) : list string :=
  [adb_path; "-s"; device_id; "shell"; "wm"; "size"].

(** A bridge that raises on every invocation. *)
Definition raising_bridge (args : list string) : ProcOutcome :=
  ProcRaise (Exn "TimeoutExpired" "Command timed out after 10 seconds").

(** A bridge that lists [listing] and answers the screen-size query with
    [size_reply], everything else with exit code 0 and ["Pixel"]. *)
Definition size_bridge (listing size_reply : string) (args : list string)
    : ProcOutcome :=
  match args with
  | [_; "devices"] => Completed 0 listing ""
  | [_; "-s"; _; "shell"; "wm"; "size"] => Completed 0 size_reply ""
  | _ => Completed 0 "Pixel" ""
  end.

(** A listing with a header and no device. *)
Definition empty_listing : string := "List of devices attached" +:+ NL +:+ NL.

(** The controller operations the handler of a task name issues when no
    operation raises. *)
Definition handler_script (task_name : string) : list DeviceOp :=
  if String.eqb task_name "RecipeAddMultipleRecipes"
  then [OpClick 500 1200; OpTypeText "Test Recipe"; OpClick 500 1400]
  else if String.eqb task_name "SimpleCalendarAddOneEvent"
  then [OpClick 500 1200; OpTypeText "Test Event"; OpClick 500 1400]
  else [].

(** What a handler can do with a script: raise after a part of it, or
    return [True] after all of it. *)
Definition runs_script {C : Type} (script : list DeviceOp)
    (m : M (ExecState C) bool) : Prop :=
  ∀ s, ∃ n s',
    device_ops s' = (device_ops s ++ take n script)%list ∧
    ((∃ e, m s = (Raise e, s')) ∨ (m s = (Ok true, s') ∧ n = length script)).

(** ** gbox_device_controller.py, the operations of a controller *)

(** What the remote device hands back. *)
Inductive RemoteValue :=
| RNone
| RBool (b : bool)
| RInt (n : Z)
| RText (s : string)
| RBytes (s : string).

(** The calls a controller makes on its device handle. *)
Inductive RemoteCall :=
| CallClick (x y : Z)
| CallTypeText (text : string)
| CallSwipe (start_x start_y end_x end_y : Z) (duration : Q)
| CallGetScreenText
| CallTakeScreenshot
| CallIsConnected
| CallGetAttr (name : string).

Inductive RemoteAnswer :=
| Returns (v : RemoteValue)
| Raises (e : exn).

(** A controller instance at work: its [__dict__], the remote device (the
    n-th call may return anything or raise) and the calls made so far. *)
Record Controller := {
  ctl_self : gmap string attrval;
  remote : nat → RemoteCall → RemoteAnswer;
  remote_calls : list RemoteCall
}.

(** [self.name] *)
Definition self_attr (name : string) : M Controller attrval :=
  s <- get ;;
  match ctl_self s !! name with
  | Some v => ret v
  | None =>
      raise (Exn "AttributeError"
                 ("object has no attribute '" +:+ name +:+ "'"))
  end.

(** [target.method(...)] or [target.attribute]: only a device handle has
    them. *)
Definition device_call (target : attrval) (call : RemoteCall)
    : M Controller RemoteValue :=
  match target with
  | ADevice _ =>
      λ s,
        let s' := {| ctl_self := ctl_self s; remote := remote s;
                     remote_calls := remote_calls s ++ [call] |} in
        match remote s (length (remote_calls s)) call with
        | Returns v => (Ok v, s')
        | Raises e => (Raise e, s')
        end
  | _ => raise (Exn "AttributeError" "object has no such attribute")
  end.

(** [len(v)], evaluated for the log line of [get_screen_text] and
    [take_screenshot]. *)
Definition py_len (v : RemoteValue) : M Controller Z :=
  match v with
  | RText s | RBytes s => ret (Z.of_nat (String.length s))
  | _ => raise (Exn "TypeError" "object has no len()")
  end.

Section GBOXOperations.

(** [true] for [GBOXLocalDeviceController], [false] for
    [GBOXDeviceController]: the two classes differ in log texts and in one
    entry of [get_device_info]. *)
Variable local : bool.

Definition gbox_click (x y : Z) : M Controller bool :=
  try_except
    (device <- self_attr "device" ;;
     if truthy_val device then
       device_call device (CallClick x y) ;;;
       ret true
     else ret false)
    (λ e, ret false).

Definition gbox_type_text (text : string) : M Controller bool :=
  try_except
    (device <- self_attr "device" ;;
     if truthy_val device then
       device_call device (CallTypeText text) ;;;
       ret true
     else ret false)
    (λ e, ret false).

Definition gbox_swipe (start_x start_y end_x end_y : Z) (duration : Q)
    : M Controller bool :=
  try_except
    (device <- self_attr "device" ;;
     if truthy_val device then
       device_call device (CallSwipe start_x start_y end_x end_y duration) ;;;
       ret true
     else ret false)
    (λ e, ret false).

Definition gbox_get_screen_text : M Controller RemoteValue :=
  try_except
    (device <- self_attr "device" ;;
     if truthy_val device then
       text <- device_call device CallGetScreenText ;;
       py_len text ;;;
       ret text
     else ret (RText ""))
    (λ e, ret (RText "")).

Definition gbox_take_screenshot : M Controller RemoteValue :=
  try_except
    (device <- self_attr "device" ;;
     if truthy_val device then
       screenshot <- device_call device CallTakeScreenshot ;;
       py_len screenshot ;;;
       ret screenshot
     else ret RNone)
    (λ e, ret RNone).

Definition gbox_is_connected : M Controller RemoteValue :=
  device <- self_attr "device" ;;
  match device with
  | ANone => ret (RBool false)
  | _ => device_call device CallIsConnected
  end.

Definition gbox_get_device_info : M Controller (gmap string RemoteValue) :=
  try_except
    (device <- self_attr "device" ;;
     if truthy_val device then
       id <- device_call device (CallGetAttr "id") ;;
       name <- device_call device (CallGetAttr "name") ;;
       model <- device_call device (CallGetAttr "model") ;;
       android_version <- device_call device (CallGetAttr "android_version") ;;
       connected <- device_call device CallIsConnected ;;
       let info : gmap string RemoteValue :=
         <["connected" := connected]>
           (<["android_version" := android_version]>
              (<["model" := model]>
                 (<["name" := name]> (<["id" := id]> ∅)))) in
       ret (if local then <["type" := RText "local_device"]> info else info)
     else ret ∅)
    (λ e, ret ∅).

End GBOXOperations.

(** Whether a value has a length. *)
Definition sized (v : RemoteValue) : bool :=
  match v with
  | RText _ | RBytes _ => true
  | _ => false
  end.

(** A controller as [__init__] leaves it before connecting: no client, no
    device. *)
Definition unconnected_controller (remote : nat → RemoteCall → RemoteAnswer)
    : Controller :=
  {| ctl_self := <["device" := ANone]>
                   (<["client" := ANone]> (<["gbox_api_key" := AStr "key"]> ∅));
     remote := remote; remote_calls := [] |}.

(** A controller bound to a device handle. *)
Definition connected_controller (remote : nat → RemoteCall → RemoteAnswer)
    : Controller :=
  {| ctl_self := <["device" := ADevice 1]>
                   (<["client" := AClient 0]> (<["gbox_api_key" := AStr "key"]> ∅));
     remote := remote; remote_calls := [] |}.

(** A remote device on which every call raises. *)
Definition failing_remote (n : nat) (call : RemoteCall) : RemoteAnswer :=
  Raises (Exn "ConnectionError" "device unreachable").

(** ** android_world_integration.py *)

(** An [AndroidWorldIntegration] object at work: the registry of its
    device manager (with the world), the process in which controllers are
    constructed, and [self.custom_agent] ([None], or the agent's controller
    instance and id). *)
Record Integration := {
  int_registry : RegState;
  int_process : PyState;
  custom_agent : option (gmap string attrval * string)
}.

Definition in_registry {A} (m : M RegState A) : M Integration A :=
  zoom int_registry
    (λ r i, {| int_registry := r; int_process := int_process i;
               custom_agent := custom_agent i |}) m.

Definition in_process {A} (m : M PyState A) : M Integration A :=
  zoom int_process
    (λ p i, {| int_registry := int_registry i; int_process := p;
               custom_agent := custom_agent i |}) m.

(** [self.custom_agent = CustomAgent(device_controller=controller)] *)
Definition set_custom_agent (controller : gmap string attrval) : M Integration unit :=
  now <- in_registry (reg_in_world time_time) ;;
  modify (λ i, {| int_registry := int_registry i; int_process := int_process i;
                  custom_agent :=
                    Some (controller,
                          "custom_agent_" +:+ str_of_int (int_of_time now)) |}).

(** The dictionary [get_device_status] returns. *)
Inductive DeviceStatus :=
| StatusConnected (device_id type model android_version : string)
                  (registration : option RegistrationRecord)
                  (screen_size : string)
| StatusNotFound (device_id : string)
| StatusError (error : string).

(** [device.get('type', 'unknown')] and the like, on an entry of
    [get_available_devices]. *)
Definition avail_type (a : AvailableDevice) : string :=
  match avail_info a with
  | Info info => info_type info
  | InfoError _ _ => "unknown"
  end.

Definition avail_property (a : AvailableDevice) (prop : string) : string :=
  match avail_info a with
  | Info info => default "unknown" (properties info !! prop)
  | InfoError _ _ => "unknown"
  end.

Definition avail_screen_size (a : AvailableDevice) : string :=
  match avail_info a with
  | Info info => default "unknown" (screen_size info)
  | InfoError _ _ => "unknown"
  end.

(** [l[:k]] *)
Definition slice_to {A} (k : Z) (l : list A) : list A :=
  if 0 <=? k then take (Z.to_nat k) l
  else take (length l - Z.to_nat (- k)) l.

(** What [run_benchmark_task] returns: an error dictionary
    [{"success": False, "error": ...}], or the agent's result with the
    evaluation added. *)
Inductive BenchResult :=
| BenchError (error : string)
| BenchRun (result : TaskResult) (task_success : option bool)
           (goal : option string).

(** [result.get("success", False)] *)
Definition bench_success (r : BenchResult) : bool :=
  match r with
  | BenchError _ => false
  | BenchRun result _ _ => success result
  end.

(** The dictionary [run_multiple_tasks] returns. *)
Record MultiResult := {
  total_tasks : nat;
  successful_tasks : nat;
  success_rate : Q;
  results : list BenchResult
}.

Section AndroidWorldIntegration.

(** [self.adb_path], [self.gbox_api_key], [self.device_id]. *)
Variable adb_path gbox_api_key device_id : string.

Definition setup_gbox_device : M Integration bool :=
  try_except
    (gbox_device_id <-
       in_registry (setup_emulator_for_gbox adb_path gbox_api_key device_id) ;;
     match gbox_device_id with
     | None => ret false
     | Some gbox_device_id =>
         if negb (PyStr.truthy gbox_device_id) then ret false
         else
           (if PyStr.startswith "emulator-" device_id then
              controller <-
                in_process (new_GBOXLocalDeviceController gbox_device_id
                              (Some gbox_api_key)) ;;
              set_custom_agent controller
            else
              controller <-
                in_process (new_GBOXDeviceController gbox_api_key None) ;;
              set_custom_agent controller) ;;;
           ret true
     end)
    (λ e, ret false).

Definition get_device_status : M RegState DeviceStatus :=
  try_except
    (available_devices <- get_available_devices adb_path ;;
     match
       List.find (λ a, String.eqb (info_result_id (avail_info a)) device_id)
                 available_devices
     with
     | Some emulator_device =>
         ret (StatusConnected device_id
                (avail_type emulator_device)
                (avail_property emulator_device "ro.product.model")
                (avail_property emulator_device "ro.build.version.release")
                (avail_registration emulator_device)
                (avail_screen_size emulator_device))
     | None => ret (StatusNotFound device_id)
     end)
    (λ e, ret (StatusError (str_exn e))).

(** The state the benchmark runs in, and [run_benchmark_task], which
    depends on the benchmark framework; every path through it returns a
    dictionary. *)
Variable Bench : Type.
Variable run_benchmark_task : string → Bench → BenchResult * Bench.

(** The [for] loop of [run_multiple_tasks], on [results] and
    [successful_tasks]. *)
Fixpoint run_tasks_loop (task_names : list string)
    (results : list BenchResult) (successful_tasks : nat) (b : Bench)
    : list BenchResult * nat * Bench :=
  match task_names with
  | [] => (results, successful_tasks, b)
  | task_name :: rest =>
      let '(result, b') := run_benchmark_task task_name b in
      run_tasks_loop rest (results ++ [result])
        (if bench_success result then S successful_tasks else successful_tasks)
        b'
  end.

Definition run_multiple_tasks (task_names : list string) (max_tasks : Z)
    (b : Bench) : MultiResult * Bench :=
  let '(results, successful_tasks, b') :=
    run_tasks_loop (slice_to max_tasks task_names) [] 0%nat b in
  ({| total_tasks := length results;
      successful_tasks := successful_tasks;
      success_rate :=
        match results with
        | [] => 0
        | _ :: _ =>
            (inject_Z (Z.of_nat successful_tasks)
             / inject_Z (Z.of_nat (length results)))%Q
        end;
      results := results |}, b').

End AndroidWorldIntegration.

(** ** verify_challenges.py *)

(** [print_results]: the counts it prints and the value it returns, for
    the items of [results] in order.  [sum(results.values())] counts the
    [True] values; the success rate is a division by the number of
    tests. *)
Definition print_results {St : Type} (challenge_name : string)
    (results : list (string * bool)) : M St bool :=
  let total_tests := length results in
  let passed_tests := length (filter (λ item, snd item = true) results) in
  let failed_tests := (Z.of_nat total_tests - Z.of_nat passed_tests)%Z in
  match total_tests with
  | O => raise (Exn "ZeroDivisionError" "division by zero")
  | S _ => ret (Nat.eqb passed_tests total_tests)
  end.

(** * Properties *)

(** ** The task executor *)

Section TaskExecutorFacts.

Context {C : Type} `{DeviceController C}.

Lemma in_world_history {A} (m : M World A) (s : ExecState C) :
  task_history (snd (in_world m s)) = task_history s.
Proof. unfold in_world, zoom. by destruct (m (world s)). Qed.

Lemma invoke_history {A} op (m : M (C * World) A) (s : ExecState C) :
  task_history (snd (invoke op m s)) = task_history s.
Proof.
  unfold invoke. by destruct (m (device_controller s, world s)) as [r [c w]].
Qed.

Lemma bind_history {A B} (m : M (ExecState C) A) (k : A → M (ExecState C) B) s :
  (∀ s0, task_history (snd (m s0)) = task_history s0) →
  (∀ a s0, task_history (snd (k a s0)) = task_history s0) →
  task_history (snd (bind m k s)) = task_history s.
Proof.
  intros Hm Hk. unfold bind. specialize (Hm s).
  destruct (m s) as [[a|e] s1]; simpl in *; [|done].
  by rewrite Hk.
Qed.

Lemma ret_history {A} (a : A) (s : ExecState C) :
  task_history (snd (ret a s)) = task_history s.
Proof. done. Qed.

Ltac history_steps :=
  repeat first
    [ apply ret_history
    | apply in_world_history
    | apply invoke_history
    | apply bind_history; intros ].

(** No handler touches the history. *)
Lemma dispatch_history task_name task_params (s : ExecState C) :
  task_history (snd (dispatch task_name task_params s)) = task_history s.
Proof.
  unfold dispatch, _execute_recipe_task, _execute_calendar_task,
    _execute_generic_task.
  repeat case_match; history_steps.
Qed.

(** What [execute_task] does, in terms of the outcome of the handler. *)
Lemma execute_task_run task_name task_params (s : ExecState C) :
  let s0 := handler_start s in
  let start_time := clock (world s) (clock_reads (world s)) in
  let ran := dispatch task_name task_params s0 in
  let s1 := snd ran in
  let end_time := clock (world s1) (clock_reads (world s1)) in
  let r := {| task_name := task_name;
              success := match fst ran with Ok b => b | Raise _ => false end;
              execution_time := (end_time - start_time)%Q;
              error_message :=
                match fst ran with
                | Ok _ => None
                | Raise e => Some (str_exn e)
                end;
              timestamp := start_time |} in
  execute_task task_name task_params s =
    (Ok r,
     {| device_controller := device_controller s1;
        task_history := task_history s1 ++ [r];
        world := snd (time_time (world s1));
        device_ops := device_ops s1 |}).
Proof.
  unfold handler_start, execute_task, bind at 1. simpl.
  unfold bind at 1, try_except, bind at 1.
  destruct (dispatch _ _ _) as [[b|e] s1]; reflexivity.
Qed.

(** C4. Whatever the task name and the parameters, [execute_task]
    returns a result and lets no exception of the handler through: when
    the dispatched handler raises [e], the result has [success = false]
    and [error_message = str(e)]; when it returns [b], the result has
    [success = b] and no error message. *)
Theorem execute_task_captures_handler_outcome
    (name : string) (task_params : gmap string pyval) (s : ExecState C) :
  ∃ r s',
    execute_task name task_params s = (Ok r, s') ∧
    match fst (dispatch name task_params (handler_start s)) with
    | Raise e => success r = false ∧ error_message r = Some (str_exn e)
    | Ok b => success r = b ∧ error_message r = None
    end.
Proof.
  eexists _, _. split; [apply execute_task_run|].
  simpl. by destruct (fst (dispatch _ _ _)).
Qed.

(** One call appends its own result, and nothing else, to the history. *)
Lemma execute_task_appends name task_params (s : ExecState C) :
  ∃ r s',
    execute_task name task_params s = (Ok r, s') ∧
    task_history s' = (task_history s ++ [r])%list ∧
    task_name r = name.
Proof.
  eexists _, _. split; [apply execute_task_run|].
  cbv zeta. cbn [task_history task_name]. split; [|done].
  by rewrite dispatch_history; unfold handler_start; rewrite in_world_history.
Qed.

(** C5. Any sequence of calls of [execute_task] runs to its end, and the
    history afterwards is the history before followed by the results of
    the calls, one per call and in the order of the calls: its length
    grows by the number of calls (so it is N after N calls on a new
    executor) and the entries present before are unchanged. *)
Theorem execute_tasks_history_append_only
    (calls : list (string * gmap string pyval)) (s : ExecState C) :
  ∃ rs s',
    execute_tasks calls s = (Ok rs, s') ∧
    task_history s' = (task_history s ++ rs)%list ∧
    length rs = length calls ∧
    map task_name rs = map fst calls ∧
    length (task_history s') = (length (task_history s) + length calls)%nat.
Proof.
  revert s. induction calls as [|[name params] rest IH]; intros s.
  - exists [], s. simpl. rewrite app_nil_r. repeat split; lia.
  - destruct (execute_task_appends name params s) as (r & s1 & Hrun & Hhist & Hname).
    destruct (IH s1) as (rs & s2 & Hrest & Hhist2 & Hlen & Hnames & _).
    exists (r :: rs), s2. simpl. unfold bind. rewrite Hrun, Hrest.
    split; [done|].
    assert (task_history s2 = (task_history s ++ r :: rs)%list) as Hall.
    { rewrite Hhist2, Hhist, <- app_assoc. done. }
    repeat split.
    + done.
    + by rewrite Hlen.
    + by rewrite Hname, Hnames.
    + rewrite Hall, length_app. simpl. lia.
Qed.

(** C6. A task name other than the two named handlers goes to the generic
    handler: the call returns a result with [success = true] and no error
    message, no controller operation is invoked, and the controller is
    left as it was. *)
Theorem execute_task_generic
    (name : string) (task_params : gmap string pyval) (s : ExecState C) :
  name ≠ "RecipeAddMultipleRecipes" →
  name ≠ "SimpleCalendarAddOneEvent" →
  dispatch name task_params = _execute_generic_task name task_params ∧
  ∃ r s',
    execute_task name task_params s = (Ok r, s') ∧
    task_name r = name ∧
    success r = true ∧
    error_message r = None ∧
    device_ops s' = device_ops s ∧
    device_controller s' = device_controller s.
Proof.
  intros Hrecipe Hcalendar.
  assert (dispatch name task_params
          = _execute_generic_task name task_params) as Hd.
  { unfold dispatch.
    apply String.eqb_neq in Hrecipe, Hcalendar.
    by rewrite Hrecipe, Hcalendar. }
  split; [done|].
  eexists _, _. split; [apply execute_task_run|].
  rewrite Hd. simpl. done.
Qed.

End TaskExecutorFacts.

(** The generic handler on the unrecognised name ["FooBarTask"], with no
    parameters, on the mock controller. *)
Lemma execute_task_generic_witness :
  let s := TaskExecutor_init MockDevice
             (stub_world (listing_bridge "" "") second_clock) in
  "FooBarTask" ≠ "RecipeAddMultipleRecipes" ∧
  "FooBarTask" ≠ "SimpleCalendarAddOneEvent" ∧
  (dispatch (C := MockDeviceController) "FooBarTask" ∅
     = _execute_generic_task "FooBarTask" ∅ ∧
   ∃ r s',
     execute_task "FooBarTask" ∅ s = (Ok r, s') ∧
     task_name r = "FooBarTask" ∧
     success r = true ∧
     error_message r = None ∧
     device_ops s' = device_ops s ∧
     device_controller s' = device_controller s).
Proof.
  split; [done|]. split; [done|].
  apply (execute_task_generic (C := MockDeviceController) "FooBarTask" ∅); done.
Defined.

(** The recipe task on the mock controller: three operations, success, one
    entry in the history. *)
Example run_recipe_task_on_mock :
  let s := TaskExecutor_init MockDevice
             (stub_world (listing_bridge "" "") second_clock) in
  match run_task "RecipeAddMultipleRecipes" None s with
  | (Ok r, s') =>
      task_name r = "RecipeAddMultipleRecipes" ∧
      success r = true ∧
      error_message r = None ∧
      task_history s' = [r] ∧
      device_ops s'
        = [OpClick 500 1200; OpTypeText "Test Recipe"; OpClick 500 1400]
  | (Raise _, _) => False
  end.
Proof. vm_compute. by repeat split. Qed.

(** The recipe task on a controller whose [type_text] raises: the handler
    stops at the second operation, and the failure is recorded. *)
Example run_recipe_task_on_broken_keyboard :
  let s := TaskExecutor_init BrokenKeyboardDevice
             (stub_world (listing_bridge "" "") second_clock) in
  match run_task "RecipeAddMultipleRecipes" None s with
  | (Ok r, s') =>
      success r = false ∧
      error_message r = Some "keyboard not available" ∧
      task_history s' = [r] ∧
      device_ops s' = [OpClick 500 1200; OpTypeText "Test Recipe"]
  | (Raise _, _) => False
  end.
Proof. vm_compute. by repeat split. Qed.

(** ** The device registry *)

Section DeviceRegistrationFacts.

Variable adb_path : string.

Lemma advance_0 w : advance 0 w = w.
Proof. by destruct w. Qed.

Lemma advance_advance n m w : advance n (advance m w) = advance (n + m) w.
Proof. unfold advance. simpl. f_equal. lia. Qed.

Lemma subprocess_run_outcome args w :
  subprocess_run args w =
    (match bridge w (bridge_calls w) args with
     | Completed rc out err =>
         Ok {| returncode := rc; stdout := out; stderr := err |}
     | ProcRaise e => Raise e
     end, advance 1 w).
Proof. unfold subprocess_run, advance. by destruct (bridge _ _ _). Qed.

(** The type check never raises and asks the bridge at most once. *)
Lemma _get_device_type_total device_id w :
  ∃ ty, _get_device_type adb_path device_id w =
          (Ok ty, advance (if PyStr.startswith "emulator-" device_id
                           then 0 else 1) w).
Proof.
  unfold _get_device_type, try_except.
  destruct (PyStr.startswith _ _).
  - exists "emulator". by rewrite advance_0.
  - unfold bind. rewrite subprocess_run_outcome.
    destruct (bridge _ _ _) as [rc out err|e]; simpl;
      [|by exists "unknown"].
    destruct (rc =? 0); [|by exists "unknown"].
    destruct (_ || _); [by exists "emulator"|by exists "physical"].
Qed.

Lemma query_property_outcome device_id props prop w :
  ∃ props',
    query_property adb_path device_id props prop w = (Ok props', advance 1 w) ∧
    props' !! prop =
      property_field
        (bridge w (bridge_calls w)
           [adb_path; "-s"; device_id; "shell"; "getprop"; prop])
        (props !! prop) ∧
    ∀ other, other ≠ prop → props' !! other = props !! other.
Proof.
  unfold query_property, try_except, bind.
  rewrite subprocess_run_outcome.
  destruct (bridge _ _ _) as [rc out err|e]; simpl.
  - destruct (rc =? 0); eexists; (split; [done|]); split;
      intros; by simplify_map_eq.
  - eexists; (split; [done|]); split; intros; by simplify_map_eq.
Qed.

(** The loop over the property names: each name's entry is decided by
    its own query, names not asked for keep their entry. *)
Lemma query_properties_outcome device_id (names : list string) :
  NoDup names →
  ∀ props w,
  ∃ props',
    query_properties adb_path device_id props names w
      = (Ok props', advance (length names) w) ∧
    (∀ i prop, names !! i = Some prop →
       props' !! prop =
         property_field
           (bridge w (i + bridge_calls w)
              [adb_path; "-s"; device_id; "shell"; "getprop"; prop])
           (props !! prop)) ∧
    (∀ other : string, other ∉ names → props' !! other = props !! other).
Proof.
  induction 1 as [|name names Hfresh Hnodup IH]; intros props w.
  - exists props. simpl. rewrite advance_0. split; [done|].
    split; [intros i prop Hi; by rewrite lookup_nil in Hi|done].
  - destruct (query_property_outcome device_id props name w)
      as (props1 & Hrun & Hname & Hother).
    destruct (IH props1 (advance 1 w)) as (props2 & Hrest & Hnames & Hkeep).
    exists props2. simpl. unfold bind. rewrite Hrun, Hrest.
    rewrite advance_advance, Nat.add_1_r. split; [done|]. split.
    + intros [|i] prop Hi; simpl in Hi.
      * injection Hi as <-. by rewrite Hkeep, Hname.
      * rewrite (Hnames i prop Hi). simpl.
        rewrite Hother, Nat.add_succ_r; [done|].
        intros ->. apply Hfresh. by eapply list_elem_of_lookup_2.
    + intros other [Hne Hnot]%not_elem_of_cons.
      by rewrite Hkeep, Hother.
Qed.

Lemma query_screen_size_total device_id size0 w :
  ∃ size, query_screen_size adb_path device_id size0 w = (Ok size, advance 1 w).
Proof.
  unfold query_screen_size, try_except, bind.
  rewrite subprocess_run_outcome.
  destruct (bridge _ _ _) as [rc out err|e]; simpl; [|by eexists].
  destruct (rc =? 0); [|by eexists].
  destruct (PyStr.contains _ _); [|by eexists].
  unfold subscript. destruct (_ !! _); by eexists.
Qed.

Lemma property_names_nodup : NoDup property_names.
Proof. apply (bool_decide_unpack _). by vm_compute. Qed.

(** C8, as amended. [get_device_info] always returns the descriptor,
    and each of the five properties is decided by its own query alone:
    the stripped output when the query exits with code 0, ["unknown"]
    when the query raises, and no entry at all when the query exits with
    another code. *)
Theorem get_device_info_property_fields (device_id : string) (w : World) :
  ∃ info w',
    get_device_info adb_path device_id w = (Ok (Info info), w') ∧
    info_id info = device_id ∧
    ∀ i prop,
      property_names !! i = Some prop →
      properties info !! prop =
        match bridge w (i + first_property_call device_id w)
                [adb_path; "-s"; device_id; "shell"; "getprop"; prop] with
        | Completed rc out _ =>
            if rc =? 0 then Some (PyStr.strip out) else None
        | ProcRaise _ => Some "unknown"
        end.
Proof.
  unfold get_device_info, try_except, bind.
  destruct (_get_device_type_total device_id w) as [ty ->].
  set (k := if PyStr.startswith _ _ then _ else _).
  destruct (query_properties_outcome device_id property_names
              property_names_nodup ∅ (advance k w))
    as (props & -> & Hfields & _).
  destruct (query_screen_size_total device_id None
              (advance (length property_names) (advance k w)))
    as [size ->].
  eexists _, _. split; [done|]. split; [done|].
  intros i prop Hi. simpl. rewrite (Hfields i prop Hi).
  unfold first_property_call. fold k. simpl.
  by rewrite lookup_empty.
Qed.

Lemma install_gbox_agent_outcome device_id w :
  install_gbox_agent adb_path device_id w =
    (Ok (completes (bridge w (bridge_calls w) (package_query adb_path device_id))),
     advance 1 w).
Proof.
  unfold install_gbox_agent, try_except, bind, package_query.
  rewrite subprocess_run_outcome.
  destruct (bridge _ _ _) as [rc out err|e]; simpl; [|done].
  by destruct (PyStr.contains _ _).
Qed.

(** What [register_with_gbox] does: nothing but a [None] when the package
    query raises; otherwise the session id built from the device id and
    the first clock reading is returned and stored, with the second
    reading, under the device id. *)
Lemma register_with_gbox_outcome device_id gbox_api_key s :
  register_with_gbox adb_path device_id gbox_api_key s =
    if completes (bridge (reg_world s) (bridge_calls (reg_world s))
                    (package_query adb_path device_id))
    then
      (Ok (Some (session_id device_id
                   (clock (reg_world s) (clock_reads (reg_world s))))),
       {| registered_devices :=
            <[device_id :=
                {| gbox_device_id :=
                     session_id device_id
                       (clock (reg_world s) (clock_reads (reg_world s)));
                   registration_time :=
                     clock (reg_world s) (S (clock_reads (reg_world s)));
                   status := "registered" |}]> (registered_devices s);
          reg_world := tick 2 (advance 1 (reg_world s)) |})
    else
      (Ok None,
       {| registered_devices := registered_devices s;
          reg_world := advance 1 (reg_world s) |}).
Proof.
  unfold register_with_gbox, try_except, bind at 1, reg_in_world at 1, zoom.
  rewrite install_gbox_agent_outcome.
  by destruct (completes _).
Qed.

(** C9, as amended. When the package query of neither call raises, two
    calls of [register_with_gbox] for one device id both return a session
    id; the map then holds, under that id, the record of the second call
    in place of the first, with the same keys and the same size as after
    the first call; and the two session ids differ exactly when the clock
    readings they are built from fall in different whole seconds. *)
Theorem register_with_gbox_twice (device_id key1 key2 : string) (s : RegState) :
  completes (bridge (reg_world s) (bridge_calls (reg_world s))
               (package_query adb_path device_id)) = true →
  completes (bridge (reg_world s) (S (bridge_calls (reg_world s)))
               (package_query adb_path device_id)) = true →
  ∃ id1 id2 s1 s2 record1 record2,
    register_with_gbox adb_path device_id key1 s = (Ok (Some id1), s1) ∧
    register_with_gbox adb_path device_id key2 s1 = (Ok (Some id2), s2) ∧
    registered_devices s1 !! device_id = Some record1 ∧
    gbox_device_id record1 = id1 ∧
    registered_devices s2 !! device_id = Some record2 ∧
    gbox_device_id record2 = id2 ∧
    registered_devices s2 = <[device_id := record2]> (registered_devices s) ∧
    dom (registered_devices s2) = dom (registered_devices s1) ∧
    size (registered_devices s2) = size (registered_devices s1) ∧
    (id1 ≠ id2 ↔
     int_of_time (clock (reg_world s) (clock_reads (reg_world s)))
     ≠ int_of_time (clock (reg_world s) (2 + clock_reads (reg_world s)))).
Proof.
  intros Hfirst Hsecond.
  eexists _, _, _, _, _, _.
  split. { rewrite register_with_gbox_outcome, Hfirst. reflexivity. }
  split. { rewrite register_with_gbox_outcome. simpl. rewrite Hsecond. reflexivity. }
  simpl. rewrite !lookup_insert_eq, insert_insert_eq, !dom_insert_L.
  repeat (split; [done || set_solver|]).
  split.
  { by rewrite <- !size_dom, !dom_insert_L. }
  unfold session_id, str_of_int. split.
  - intros Hne Heq. apply Hne. by rewrite Heq.
  - intros Hne Heq. apply Hne.
    repeat apply (inj (String.app _)) in Heq.
    by apply (inj pretty) in Heq.
Qed.

(** C10. [register_with_gbox] does not depend on the API key it is
    given: from the same device id, registry and world, two keys lead to
    the same returned session id and the same registry (hence the same
    stored record).  When the package query returns, what is returned and
    stored is built from the device id and the two clock readings. *)
Theorem register_with_gbox_ignores_api_key
    (device_id key1 key2 : string) (s : RegState) :
  register_with_gbox adb_path device_id key1 s
    = register_with_gbox adb_path device_id key2 s ∧
  ∃ r s',
    register_with_gbox adb_path device_id key1 s = (Ok r, s') ∧
    r = (if completes (bridge (reg_world s) (bridge_calls (reg_world s))
                         (package_query adb_path device_id))
         then Some (session_id device_id
                      (clock (reg_world s) (clock_reads (reg_world s))))
         else None) ∧
    registered_devices s' !! device_id =
      (if completes (bridge (reg_world s) (bridge_calls (reg_world s))
                       (package_query adb_path device_id))
       then Some {| gbox_device_id :=
                      session_id device_id
                        (clock (reg_world s) (clock_reads (reg_world s)));
                    registration_time :=
                      clock (reg_world s) (S (clock_reads (reg_world s)));
                    status := "registered" |}
       else registered_devices s !! device_id).
Proof.
  split; [by rewrite !register_with_gbox_outcome|].
  rewrite register_with_gbox_outcome.
  destruct (completes _); eexists _, _; (split; [done|]); split; try done.
  simpl. by rewrite lookup_insert_eq.
Qed.

End DeviceRegistrationFacts.

(** C8, the claim as stated fails: on a bridge whose query for the model
    exits with code 1, the descriptor is returned with the other properties
    filled in, but the model has no entry; it is not ["unknown"]. *)
Lemma get_device_info_nonzero_exit_counterexample :
  ∃ info w',
    get_device_info "adb" "R58M42ABCDE" (stub_world model_fails_bridge second_clock)
      = (Ok (Info info), w') ∧
    properties info !! "ro.product.model" = None ∧
    properties info !! "ro.product.model" ≠ Some "unknown" ∧
    properties info !! "ro.product.brand" = Some "Pixel" ∧
    screen_size info = Some "1080x2400".
Proof.
  eexists _, _. split; [reflexivity|].
  repeat split; try (by vm_compute).
Qed.

(** The descriptor of a device on the bridge whose model query exits with
    code 1. *)
Lemma get_device_info_property_fields_witness :
  let w := stub_world model_fails_bridge second_clock in
  ∃ info w',
    get_device_info "adb" "R58M42ABCDE" w = (Ok (Info info), w') ∧
    info_id info = "R58M42ABCDE" ∧
    ∀ i prop,
      property_names !! i = Some prop →
      properties info !! prop =
        match bridge w (i + first_property_call "R58M42ABCDE" w)
                ["adb"; "-s"; "R58M42ABCDE"; "shell"; "getprop"; prop] with
        | Completed rc out _ =>
            if rc =? 0 then Some (PyStr.strip out) else None
        | ProcRaise _ => Some "unknown"
        end.
Proof.
  exact (get_device_info_property_fields "adb" "R58M42ABCDE"
           (stub_world model_fails_bridge second_clock)).
Defined.

(** C9, the claim as stated fails: two registrations of one device within
    the same second return the same session id. *)
Lemma register_with_gbox_same_second_counterexample :
  ∃ id1 id2 s1 s2,
    register_with_gbox "adb" "emulator-5554" "key"
      (DeviceRegistration_init (stub_world (listing_bridge stub_listing "") quarter_clock))
      = (Ok (Some id1), s1) ∧
    register_with_gbox "adb" "emulator-5554" "key" s1 = (Ok (Some id2), s2) ∧
    id1 = id2 ∧
    id1 = "gbox_emulator_5554_1700000000".
Proof.
  eexists _, _, _, _. split; [reflexivity|].
  split; [reflexivity|].
  split; by vm_compute.
Qed.

(** Two registrations of ["emulator-5554"] on a clock that advances by a
    second per reading. *)
Lemma register_with_gbox_twice_witness :
  let s := DeviceRegistration_init
             (stub_world (listing_bridge stub_listing "") second_clock) in
  completes (bridge (reg_world s) (bridge_calls (reg_world s))
               (package_query "adb" "emulator-5554")) = true ∧
  completes (bridge (reg_world s) (S (bridge_calls (reg_world s)))
               (package_query "adb" "emulator-5554")) = true ∧
  ∃ id1 id2 s1 s2 record1 record2,
    register_with_gbox "adb" "emulator-5554" "key" s = (Ok (Some id1), s1) ∧
    register_with_gbox "adb" "emulator-5554" "key" s1 = (Ok (Some id2), s2) ∧
    registered_devices s1 !! "emulator-5554" = Some record1 ∧
    gbox_device_id record1 = id1 ∧
    registered_devices s2 !! "emulator-5554" = Some record2 ∧
    gbox_device_id record2 = id2 ∧
    registered_devices s2 = <["emulator-5554" := record2]> (registered_devices s) ∧
    dom (registered_devices s2) = dom (registered_devices s1) ∧
    size (registered_devices s2) = size (registered_devices s1) ∧
    (id1 ≠ id2 ↔
     int_of_time (clock (reg_world s) (clock_reads (reg_world s)))
     ≠ int_of_time (clock (reg_world s) (2 + clock_reads (reg_world s)))).
Proof.
  split; [reflexivity|]. split; [reflexivity|].
  apply (register_with_gbox_twice "adb" "emulator-5554" "key" "key");
    reflexivity.
Defined.

(** ** Reading the bridge listing *)

Section Listing.

Lemma split_tab_cons c r :
  PyStr.split TAB (String c r) =
    if Ascii.eqb "009" c then "" :: PyStr.split TAB r
    else match PyStr.split TAB r with
         | h :: t => String c h :: t
         | [] => [String c ""]
         end.
Proof.
  unfold PyStr.split, TAB.
  cbn [PyStr.split_go String.prefix String.length Nat.pred].
  destruct (ascii_dec "009" c) as [Heq|Hne].
  - apply Ascii.eqb_eq in Heq. rewrite Heq. by destruct r.
  - apply Ascii.eqb_neq in Hne. by rewrite Hne.
Qed.

Lemma split_tab_nonempty s : PyStr.split TAB s ≠ [].
Proof.
  destruct s as [|c r]; [done|]. rewrite split_tab_cons.
  repeat case_match; done.
Qed.

Lemma contains_tab_cons c r :
  PyStr.contains TAB (String c r) = Ascii.eqb "009" c || PyStr.contains TAB r.
Proof.
  unfold TAB. cbn [PyStr.contains String.prefix].
  destruct (ascii_dec "009" c) as [Heq|Hne].
  - apply Ascii.eqb_eq in Heq. rewrite Heq. by destruct r.
  - apply Ascii.eqb_neq in Hne. by rewrite Hne.
Qed.

(** A line contains a tab exactly when splitting it at tabs gives at
    least two fields. *)
Lemma contains_tab_fields s :
  PyStr.contains TAB s = true ↔ (2 ≤ length (PyStr.split TAB s))%nat.
Proof.
  induction s as [|c r IH].
  - simpl. split; [done|lia].
  - rewrite contains_tab_cons, split_tab_cons.
    pose proof (split_tab_nonempty r) as Hne.
    destruct (Ascii.eqb "009" c); simpl.
    + destruct (PyStr.split TAB r); [done|]. simpl. split; [lia|done].
    + destruct (PyStr.split TAB r) as [|h t] eqn:E; [done|].
      simpl in *. apply IH.
Qed.

Lemma split_tab_one s b : PyStr.split TAB s = [b] → s = b.
Proof.
  revert b. induction s as [|c r IH]; intros b.
  - simpl. by intros [= <-].
  - rewrite split_tab_cons.
    pose proof (split_tab_nonempty r) as Hne.
    destruct (Ascii.eqb "009" c).
    + destruct (PyStr.split TAB r); [done|]. done.
    + destruct (PyStr.split TAB r) as [|h t]; [done|].
      intros [= <- ->]. by rewrite (IH h).
Qed.

(** A line with exactly two fields is the two joined by a tab. *)
Lemma split_tab_two s a b :
  PyStr.split TAB s = [a; b] → s = a +:+ TAB +:+ b.
Proof.
  revert a. induction s as [|c r IH]; intros a.
  - done.
  - rewrite split_tab_cons.
    destruct (Ascii.eqb "009" c) eqn:Hc.
    + intros [= <- Hr]. apply split_tab_one in Hr as ->.
      apply Ascii.eqb_eq in Hc as <-. done.
    + destruct (PyStr.split TAB r) as [|h t]; [done|].
      intros [= <- ->]. by rewrite (IH h).
Qed.

Lemma append_cons c (a b : string) : String c a +:+ b = String c (a +:+ b).
Proof. reflexivity. Qed.

Lemma append_assoc (a b c : string) : a +:+ b +:+ c = (a +:+ b) +:+ c.
Proof.
  induction a as [|x a IH]; [done|].
  by rewrite !append_cons, IH.
Qed.

Lemma lstrip_keeps_device p :
  ∃ q, PyStr.lstrip (p +:+ "device") = q +:+ "device".
Proof.
  induction p as [|c p IH].
  - by exists "".
  - simpl. destruct (PyStr.isspace c); [done|]. by exists (String c p).
Qed.

Lemma rstrip_keeps_device q : PyStr.rstrip (q +:+ "device") ≠ "".
Proof.
  induction q as [|c q IH]; [done|].
  simpl. by destruct (PyStr.rstrip _).
Qed.

(** A row whose status is ["device"] is not blank. *)
Lemma device_row_not_blank a :
  PyStr.truthy (PyStr.strip (a +:+ TAB +:+ "device")) = true.
Proof.
  unfold PyStr.strip. rewrite append_assoc.
  destruct (lstrip_keeps_device (a +:+ TAB)) as [rest Hrest].
  rewrite Hrest.
  pose proof (rstrip_keeps_device rest).
  by destruct (PyStr.rstrip _).
Qed.

Lemma ready_rows_cons row rows :
  ready_rows (row :: rows) = (ready_rows [row] ++ ready_rows rows)%list.
Proof.
  unfold ready_rows. simpl. destruct (row_fields row) as [fields|]; [|done].
  exact (filter_app _ [fields] (omap row_fields rows)).
Qed.

End Listing.

Section ConnectedDevices.

Variable adb_path : string.

(** One row with at most two fields: nothing is raised, and the devices
    added are the ready devices of that row. *)
Lemma scan_line_outcome devices line w :
  (length (PyStr.split TAB line) ≤ 2)%nat →
  ∃ new w',
    scan_line adb_path devices line w = (Ok (devices ++ new)%list, w') ∧
    map device_fields new = ready_rows [line].
Proof.
  intros Hwidth. unfold scan_line, ready_rows, row_fields. simpl.
  pose proof (contains_tab_fields line) as Htab.
  destruct (PyStr.split TAB line) as [|a [|b [|c rest]]] eqn:Hsplit;
    simpl in Hwidth; try lia.
  - by destruct (split_tab_nonempty line).
  - destruct (PyStr.contains TAB line).
    { destruct Htab as [Htab _]. specialize (Htab eq_refl). simpl in Htab. lia. }
    rewrite andb_false_r. exists [], w. by rewrite app_nil_r.
  - destruct (decide (b = "device")) as [->|Hstatus].
    + apply split_tab_two in Hsplit as ->.
      rewrite device_row_not_blank.
      destruct Htab as [_ ->]; [|simpl; lia].
      simpl. unfold bind. simpl.
      destruct (_get_device_type_total adb_path a w) as [ty ->].
      eexists [_], _. split; [done|].
      rewrite filter_cons, filter_nil. by rewrite decide_True.
    + assert (String.eqb b "device" = false) as Heqb
        by by apply String.eqb_neq.
      exists [], w. rewrite app_nil_r. split.
      * destruct (_ && _); [|done]. unfold bind. simpl. by rewrite Heqb.
      * rewrite filter_cons, filter_nil. by rewrite decide_False.
Qed.

Lemma scan_lines_outcome rows :
  Forall (λ row, (length (PyStr.split TAB row) ≤ 2)%nat) rows →
  ∀ devices w,
  ∃ new w',
    scan_lines adb_path devices rows w = (Ok (devices ++ new)%list, w') ∧
    map device_fields new = ready_rows rows.
Proof.
  induction 1 as [|row rows Hrow Hrows IH]; intros devices w.
  - exists [], w. by rewrite app_nil_r.
  - destruct (scan_line_outcome devices row w Hrow) as (new1 & w1 & Hrun & Hnew1).
    destruct (IH (devices ++ new1)%list w1) as (new2 & w2 & Hrest & Hnew2).
    exists (new1 ++ new2)%list, w2. simpl. unfold bind. rewrite Hrun, Hrest.
    split; [by rewrite app_assoc|].
    by rewrite ready_rows_cons, map_app, Hnew1, Hnew2.
Qed.

(** C7, as amended. When the bridge lists the devices with exit code 0
    and no row after the header line has more than two tab-separated
    fields, [get_connected_devices] returns exactly the id/status rows
    whose status is ["device"], in their order; the header line and the
    rows with another status are left out. *)
Theorem get_connected_devices_ready_rows (w : World) (out err : string) :
  bridge w (bridge_calls w) [adb_path; "devices"] = Completed 0 out err →
  Forall (λ row, (length (PyStr.split TAB row) ≤ 2)%nat) (listing_rows out) →
  ∃ devices w',
    get_connected_devices adb_path w = (Ok devices, w') ∧
    map (λ d, (dev_id d, dev_status d)) devices = ready_rows (listing_rows out) ∧
    Forall (λ d, dev_status d = "device") devices.
Proof.
  intros Hlist Hrows.
  unfold get_connected_devices, try_except, bind.
  rewrite subprocess_run_outcome, Hlist. simpl.
  destruct (scan_lines_outcome _ Hrows [] (advance 1 w))
    as (devices & w' & Hrun & Hfields).
  fold (listing_rows out). rewrite Hrun. simpl.
  exists devices, w'. split; [done|]. split; [done|].
  apply Forall_forall. intros d Hd.
  assert (device_fields d ∈ ready_rows (listing_rows out)) as Hin.
  { rewrite <- Hfields. by apply list_elem_of_fmap_2. }
  unfold ready_rows in Hin. apply list_elem_of_filter in Hin as [Hstatus _].
  done.
Qed.

End ConnectedDevices.

(** The listing with two ready devices and an offline one: exactly the two
    ready devices come back, in order. *)
Example get_connected_devices_stub_listing :
  fst (get_connected_devices "adb"
         (stub_world (listing_bridge stub_listing "") second_clock))
  = Ok [ {| dev_id := "emulator-5554"; dev_status := "device";
            dev_type := "emulator" |};
         {| dev_id := "emulator-5556"; dev_status := "device";
            dev_type := "emulator" |} ].
Proof. by vm_compute. Qed.

(** The same listing, through the general statement. *)
Lemma get_connected_devices_ready_rows_witness :
  let w := stub_world (listing_bridge stub_listing "") second_clock in
  bridge w (bridge_calls w) ["adb"; "devices"] = Completed 0 stub_listing "" ∧
  Forall (λ row, (length (PyStr.split TAB row) ≤ 2)%nat)
         (listing_rows stub_listing) ∧
  ready_rows (listing_rows stub_listing)
    = [("emulator-5554", "device"); ("emulator-5556", "device")] ∧
  ∃ devices w',
    get_connected_devices "adb" w = (Ok devices, w') ∧
    map (λ d, (dev_id d, dev_status d)) devices
      = ready_rows (listing_rows stub_listing) ∧
    Forall (λ d, dev_status d = "device") devices.
Proof.
  split; [reflexivity|].
  assert (Forall (λ row, (length (PyStr.split TAB row) ≤ 2)%nat)
            (listing_rows stub_listing)) as Hrows.
  { apply (bool_decide_unpack _). by vm_compute. }
  split; [exact Hrows|].
  split; [by vm_compute|].
  apply (get_connected_devices_ready_rows "adb" _ stub_listing "");
    [reflexivity|exact Hrows].
Defined.

(** C7, the claim as stated fails: the listing below has a header line, a
    ready row and an offline row with a third column; the ready device is
    not returned, the result is the empty list. *)
Lemma get_connected_devices_wide_row_counterexample :
  let w := stub_world (listing_bridge wide_listing "") second_clock in
  bridge w (bridge_calls w) ["adb"; "devices"] = Completed 0 wide_listing "" ∧
  PyStr.split NL wide_listing
    = ["List of devices attached";
       "emulator-5554" +:+ TAB +:+ "device";
       "R58M42ABCDE" +:+ TAB +:+ "offline" +:+ TAB +:+ "usb:1-1";
       ""] ∧
  ready_rows (listing_rows wide_listing) = [("emulator-5554", "device")] ∧
  fst (get_connected_devices "adb" w) = Ok [].
Proof. repeat split; by vm_compute. Qed.

(** ** Constructing the remote controllers *)

Lemma MockDeviceController_abstractmethods :
  abstractmethods cls_MockDeviceController = [].
Proof. by vm_compute. Qed.

Lemma DeviceController_abstractmethods :
  abstractmethods cls_DeviceController
  = ["click"; "swipe"; "type_text"; "press_key"; "get_screen_info"].
Proof. by vm_compute. Qed.

Lemma GBOXDeviceController_abstractmethods :
  abstractmethods cls_GBOXDeviceController = ["press_key"; "get_screen_info"].
Proof. by vm_compute. Qed.

Lemma GBOXLocalDeviceController_abstractmethods :
  abstractmethods cls_GBOXLocalDeviceController
  = ["press_key"; "get_screen_info"].
Proof. by vm_compute. Qed.

(** The mock controller, which overrides all five operations, can be
    constructed. *)
Lemma MockDeviceController_instantiates (s : PyState) :
  instantiate cls_MockDeviceController (super_init cls_MockDeviceController []) s
  = (Ok ∅, set_self ∅ s).
Proof.
  unfold instantiate. by rewrite MockDeviceController_abstractmethods.
Qed.

(** Above the controllers, [__init__] resolves to [object.__init__]. *)
Lemma super_init_resolves_to_object :
  lookup_mro "__init__" (tail (mro cls_GBOXDeviceController)) = Some ObjectInit ∧
  lookup_mro "__init__" (tail (mro cls_GBOXLocalDeviceController)) = Some ObjectInit.
Proof. by vm_compute. Qed.

(** The check the initializers were written to make: once past the
    [super().__init__] call, a missing key (no argument, no environment
    value) raises [ValueError]. *)
Lemma init_body_requires_api_key (s : PyState) :
  environ s !! "GBOX_API_KEY" = None →
  (∃ s', GBOXDeviceController_init_body None s
         = (Raise (Exn "ValueError" "GBOX_API_KEY environment variable required"), s')
         ∧ sdk_calls s' = sdk_calls s) ∧
  (∃ s', GBOXLocalDeviceController_init_body None s
         = (Raise (Exn "ValueError" "GBOX_API_KEY environment variable required"), s')
         ∧ sdk_calls s' = sdk_calls s).
Proof.
  intros Henv.
  unfold GBOXDeviceController_init_body, GBOXLocalDeviceController_init_body,
    os_getenv, gets, setattr, modify, getattr, get, raise, bind. simpl.
  rewrite Henv. simpl.
  rewrite !lookup_insert_ne by done. rewrite !lookup_insert_eq. simpl.
  split; eexists; split; reflexivity.
Qed.

(** C2. Whatever the device id, the key argument and the process,
    constructing either remote controller raises [TypeError] and leaves
    the process as it was, so no backend call has been made: the classes
    still carry the abstract methods [press_key] and [get_screen_info] of
    [DeviceController], which they never override; and their initializer,
    run on its own, raises [TypeError] as well, because the
    [super().__init__] call with the device id reaches [object.__init__]. *)
Theorem remote_controllers_cannot_be_constructed
    (device_id : string) (gbox_api_key : option string) (s : PyState) :
  (∃ e, new_GBOXDeviceController device_id gbox_api_key s = (Raise e, s)
        ∧ exn_type e = "TypeError") ∧
  (∃ e, new_GBOXLocalDeviceController device_id gbox_api_key s = (Raise e, s)
        ∧ exn_type e = "TypeError") ∧
  abstractmethods cls_GBOXDeviceController = ["press_key"; "get_screen_info"] ∧
  abstractmethods cls_GBOXLocalDeviceController = ["press_key"; "get_screen_info"] ∧
  (∃ e, GBOXDeviceController_init device_id gbox_api_key s = (Raise e, s)
        ∧ exn_type e = "TypeError") ∧
  (∃ e, GBOXLocalDeviceController_init device_id gbox_api_key s = (Raise e, s)
        ∧ exn_type e = "TypeError").
Proof.
  unfold new_GBOXDeviceController, new_GBOXLocalDeviceController, instantiate.
  rewrite GBOXDeviceController_abstractmethods,
    GBOXLocalDeviceController_abstractmethods.
  unfold GBOXDeviceController_init, GBOXLocalDeviceController_init, super_init.
  destruct super_init_resolves_to_object as [-> ->].
  repeat split; by eexists.
Qed.

(** C1, on the code. In a process without [GBOX_API_KEY], constructing
    either remote controller with no key argument raises [TypeError], not
    the [ValueError] of the missing-key check: the check is never
    reached. *)
Theorem remote_controller_without_key_raises_TypeError :
  environ no_key_process !! "GBOX_API_KEY" = None ∧
  (∃ e, new_GBOXDeviceController "test_device" None no_key_process
          = (Raise e, no_key_process)
        ∧ exn_type e = "TypeError" ∧ exn_type e ≠ "ValueError") ∧
  (∃ e, new_GBOXLocalDeviceController "test_device" None no_key_process
          = (Raise e, no_key_process)
        ∧ exn_type e = "TypeError" ∧ exn_type e ≠ "ValueError").
Proof.
  split; [done|].
  unfold new_GBOXDeviceController, new_GBOXLocalDeviceController, instantiate.
  rewrite GBOXDeviceController_abstractmethods,
    GBOXLocalDeviceController_abstractmethods.
  split; eexists; (split; [reflexivity|]); by simpl.
Qed.

(** C3, on the code. Neither remote controller class, nor any class above
    it, binds [close] or [close_box]: looking either name up on the class
    finds nothing, and an instance holding only the attributes the
    initializer assigns does not have it. *)
Theorem remote_controllers_define_no_close :
  class_getattr cls_GBOXDeviceController "close" = None ∧
  class_getattr cls_GBOXDeviceController "close_box" = None ∧
  class_getattr cls_GBOXLocalDeviceController "close" = None ∧
  class_getattr cls_GBOXLocalDeviceController "close_box" = None ∧
  (∀ key client device : attrval,
     let d : gmap string attrval :=
       <["device" := device]>
         (<["client" := client]> (<["gbox_api_key" := key]> ∅)) in
     hasattr cls_GBOXDeviceController d "close" = false ∧
     hasattr cls_GBOXDeviceController d "close_box" = false ∧
     hasattr cls_GBOXLocalDeviceController d "close" = false ∧
     hasattr cls_GBOXLocalDeviceController d "close_box" = false).
Proof.
  repeat split; try (by vm_compute);
    unfold hasattr; by rewrite !lookup_insert_ne, lookup_empty by done.
Qed.


(** * Further properties of the sources *)

(** ** Splitting at a separator *)

Lemma split_without_separator (sep s : string) :
  PyStr.contains sep s = false → PyStr.split sep s = [s].
Proof.
  unfold PyStr.split. induction s as [|c r IH]; [done|].
  cbn [PyStr.contains PyStr.split_go].
  intros [Hprefix Hrest]%orb_false_elim.
  by rewrite Hprefix, (IH Hrest).
Qed.

Lemma split_go_skip (sep p rest : string) :
  PyStr.split_go sep (String.length p) (p +:+ rest) = PyStr.split_go sep 0 rest.
Proof.
  induction p as [|c p IH]; [by destruct rest|].
  rewrite append_cons. cbn [String.length PyStr.split_go]. exact IH.
Qed.

Lemma prefix_append (p rest : string) : String.prefix p (p +:+ rest) = true.
Proof.
  induction p as [|c p IH]; [by destruct rest|].
  rewrite append_cons. cbn [String.prefix].
  by destruct (ascii_dec c c).
Qed.

(** A string that starts with the separator and has no other occurrence
    of it splits into the empty string and the rest. *)
Lemma split_leading_separator (c : ascii) (sep' rest : string) :
  PyStr.contains (String c sep') rest = false →
  PyStr.split (String c sep') (String c sep' +:+ rest) = [""; rest].
Proof.
  intros Hrest. unfold PyStr.split.
  pose proof (prefix_append (String c sep') rest) as Hprefix.
  rewrite append_cons in *. cbn [PyStr.split_go]. rewrite Hprefix.
  cbn [String.length Nat.pred]. rewrite split_go_skip.
  f_equal. exact (split_without_separator _ _ Hrest).
Qed.

(** ** More on the device registry *)

Section RegistryMore.

Variable adb_path : string.

(** X1. [_get_device_type] never raises and answers one of the three
    kinds.  An id starting with ["emulator-"] is an emulator without the
    bridge being asked; otherwise the bridge is asked once for the model,
    and a query that raises or exits with a non-zero code gives
    ["unknown"]. *)
Theorem _get_device_type_classification (device_id : string) (w : World) :
  ∃ ty,
    _get_device_type adb_path device_id w =
      (Ok ty, advance (if PyStr.startswith "emulator-" device_id
                       then 0 else 1) w) ∧
    ty ∈ device_kinds ∧
    if PyStr.startswith "emulator-" device_id then ty = "emulator"
    else match bridge w (bridge_calls w) (model_query adb_path device_id) with
         | Completed rc out _ =>
             if rc =? 0 then ty = "emulator" ∨ ty = "physical"
             else ty = "unknown"
         | ProcRaise _ => ty = "unknown"
         end.
Proof.
  unfold _get_device_type, try_except, model_query, device_kinds.
  destruct (PyStr.startswith _ _).
  - exists "emulator". rewrite advance_0. repeat split; set_solver.
  - unfold bind. rewrite subprocess_run_outcome.
    destruct (bridge _ _ _) as [rc out err|e]; simpl.
    + destruct (rc =? 0).
      * destruct (_ || _); eexists; repeat split; set_solver.
      * exists "unknown". repeat split; set_solver.
    + exists "unknown". repeat split; set_solver.
Qed.

(** X2. When the listing command raises or exits with a non-zero code,
    [get_connected_devices] returns the empty list; it asks the bridge
    once and raises nothing. *)
Theorem get_connected_devices_bridge_failure (w : World) :
  match bridge w (bridge_calls w) [adb_path; "devices"] with
  | Completed rc _ _ =>
      if rc =? 0 then True
      else get_connected_devices adb_path w = (Ok [], advance 1 w)
  | ProcRaise _ => get_connected_devices adb_path w = (Ok [], advance 1 w)
  end.
Proof.
  unfold get_connected_devices, try_except, bind.
  rewrite subprocess_run_outcome.
  destruct (bridge _ _ _) as [rc out err|e]; simpl; [|done].
  by destruct (rc =? 0).
Qed.

Lemma _get_device_type_kind device_id w :
  ∃ ty w', _get_device_type adb_path device_id w = (Ok ty, w') ∧
           ty ∈ device_kinds.
Proof.
  unfold _get_device_type, try_except, bind, device_kinds.
  destruct (PyStr.startswith _ _); [eexists _, _; split; [done|set_solver]|].
  rewrite subprocess_run_outcome.
  destruct (bridge _ _ _) as [rc out err|e]; simpl;
    [|eexists _, _; split; [done|set_solver]].
  destruct (rc =? 0); [|eexists _, _; split; [done|set_solver]].
  destruct (_ || _); eexists _, _; (split; [done|set_solver]).
Qed.

(** One row adds at most one entry, a ready one of a known kind, or
    raises. *)
Lemma scan_line_adds_ready devices line w :
  (∃ e w', scan_line adb_path devices line w = (Raise e, w')) ∨
  (∃ new w',
     scan_line adb_path devices line w = (Ok (devices ++ new)%list, w') ∧
     Forall (λ d, dev_status d = "device" ∧ dev_type d ∈ device_kinds) new ∧
     (length new ≤ 1)%nat).
Proof.
  unfold scan_line.
  destruct (_ && _).
  - unfold bind, unpack2.
    destruct (PyStr.split TAB line) as [|a [|b [|c rest]]];
      try (left; by eexists _, _).
    simpl. destruct (String.eqb b "device") eqn:Hstatus.
    + apply String.eqb_eq in Hstatus as ->.
      destruct (_get_device_type_kind a w) as (ty & w' & -> & Hkind).
      right. eexists [_], _. split; [done|].
      split; [by apply Forall_singleton|simpl; lia].
    + right. exists [], w. rewrite app_nil_r. split; [done|].
      split; [done|simpl; lia].
  - right. exists [], w. rewrite app_nil_r. split; [done|].
    split; [done|simpl; lia].
Qed.

Lemma scan_lines_adds_ready lines :
  ∀ devices w,
    (∃ e w', scan_lines adb_path devices lines w = (Raise e, w')) ∨
    (∃ new w',
       scan_lines adb_path devices lines w = (Ok (devices ++ new)%list, w') ∧
       Forall (λ d, dev_status d = "device" ∧ dev_type d ∈ device_kinds) new ∧
       (length new ≤ length lines)%nat).
Proof.
  induction lines as [|line lines IH]; intros devices w.
  - right. exists [], w. rewrite app_nil_r. split; [done|].
    split; [done|simpl; lia].
  - simpl. unfold bind.
    destruct (scan_line_adds_ready devices line w)
      as [(e & w1 & ->)|(new1 & w1 & -> & Hnew1 & Hlen1)];
      [left; by eexists _, _|].
    destruct (IH (devices ++ new1)%list w1)
      as [(e & w2 & ->)|(new2 & w2 & -> & Hnew2 & Hlen2)];
      [left; by eexists _, _|].
    right. exists (new1 ++ new2)%list, w2.
    split; [by rewrite app_assoc|].
    split; [by apply Forall_app|].
    rewrite length_app. simpl. lia.
Qed.

(** X3. Whatever the bridge answers, [get_connected_devices] raises
    nothing, every entry it returns has status ["device"] and one of the
    three kinds, and there are no more entries than rows after the header
    line. *)
Theorem get_connected_devices_entries (w : World) :
  ∃ devices w',
    get_connected_devices adb_path w = (Ok devices, w') ∧
    Forall (λ d, dev_status d = "device" ∧ dev_type d ∈ device_kinds) devices ∧
    match bridge w (bridge_calls w) [adb_path; "devices"] with
    | Completed _ out _ => (length devices ≤ length (listing_rows out))%nat
    | ProcRaise _ => devices = []
    end.
Proof.
  unfold get_connected_devices, try_except, bind.
  rewrite subprocess_run_outcome.
  destruct (bridge _ _ _) as [rc out err|e]; simpl;
    [|by eexists [], _].
  destruct (rc =? 0); simpl;
    [|eexists [], _; repeat split; [done|simpl; lia]].
  fold (listing_rows out).
  destruct (scan_lines_adds_ready (listing_rows out) [] (advance 1 w))
    as [(e & w2 & ->)|(new & w2 & -> & Hnew & Hlen)].
  - eexists [], _. repeat split; [done|simpl; lia].
  - by eexists new, _.
Qed.

End RegistryMore.

(** ** The descriptor's screen size *)

Section ScreenSize.

Variable adb_path : string.

(** The screen-size block alone. *)
Lemma query_screen_size_outcome device_id size0 w :
  query_screen_size adb_path device_id size0 w =
    (Ok match bridge w (bridge_calls w) (size_query adb_path device_id) with
        | Completed rc out _ =>
            if rc =? 0 then
              if PyStr.contains "Physical size:" (PyStr.strip out) then
                match PyStr.split "Physical size: " (PyStr.strip out) !! 1%nat with
                | Some size => Some size
                | None => Some "unknown"
                end
              else size0
            else size0
        | ProcRaise _ => Some "unknown"
        end,
     advance 1 w).
Proof.
  unfold query_screen_size, try_except, bind, size_query.
  rewrite subprocess_run_outcome.
  destruct (bridge _ _ _) as [rc out err|e]; simpl; [|done].
  destruct (rc =? 0); [|done].
  destruct (PyStr.contains _ _); [|done].
  unfold subscript. by destruct (_ !! _).
Qed.

(** [get_device_info] returns the descriptor of the device it was asked
    about; its screen size is what the screen-size block finds after the
    type check and the five property queries. *)
Lemma get_device_info_run device_id w :
  ∃ info w5,
    get_device_info adb_path device_id w = (Ok (Info info), advance 1 w5) ∧
    info_id info = device_id ∧
    bridge w5 = bridge w ∧
    bridge_calls w5 = (5 + first_property_call device_id w)%nat ∧
    query_screen_size adb_path device_id None w5
      = (Ok (screen_size info), advance 1 w5).
Proof.
  unfold get_device_info, try_except, bind.
  destruct (_get_device_type_total adb_path device_id w) as [ty ->].
  set (k := if PyStr.startswith _ _ then _ else _).
  destruct (query_properties_outcome adb_path device_id property_names
              property_names_nodup ∅ (advance k w))
    as (props & -> & _ & _).
  set (w5 := advance (length property_names) (advance k w)).
  pose proof (query_screen_size_outcome device_id None w5) as Hsize.
  rewrite Hsize.
  eexists _, w5. split; [done|]. split; [done|]. split; [done|].
  split; [|exact Hsize].
  unfold first_property_call. by fold k.
Qed.

(** X4. When the screen-size query prints ["Physical size:"] without the
    blank that the code splits at, the descriptor is still returned and
    its screen size is ["unknown"]. *)
Theorem get_device_info_screen_size_without_blank
    (device_id : string) (w : World) (out err : string) :
  bridge w (5 + first_property_call device_id w) (size_query adb_path device_id)
    = Completed 0 out err →
  PyStr.contains "Physical size:" (PyStr.strip out) = true →
  PyStr.contains "Physical size: " (PyStr.strip out) = false →
  ∃ info w',
    get_device_info adb_path device_id w = (Ok (Info info), w') ∧
    screen_size info = Some "unknown".
Proof.
  intros Hquery Hmarker Hblank.
  destruct (get_device_info_run device_id w)
    as (info & w5 & Hrun & _ & Hbridge & Hcalls & Hsize).
  exists info, (advance 1 w5). split; [done|].
  rewrite query_screen_size_outcome, Hbridge, Hcalls, Hquery in Hsize.
  simpl in Hsize. rewrite Hmarker, (split_without_separator _ _ Hblank) in Hsize.
  simpl in Hsize. congruence.
Qed.

(** X5. When the screen-size query exits with code 0 and its stripped
    output is ["Physical size: "] followed by dimensions that do not
    repeat that marker, the descriptor's screen size is the dimensions. *)
Theorem get_device_info_screen_size_value
    (device_id : string) (w : World) (out err dims : string) :
  bridge w (5 + first_property_call device_id w) (size_query adb_path device_id)
    = Completed 0 out err →
  PyStr.strip out = "Physical size: " +:+ dims →
  PyStr.contains "Physical size: " dims = false →
  ∃ info w',
    get_device_info adb_path device_id w = (Ok (Info info), w') ∧
    screen_size info = Some dims.
Proof.
  intros Hquery Hout Hdims.
  destruct (get_device_info_run device_id w)
    as (info & w5 & Hrun & _ & Hbridge & Hcalls & Hsize).
  exists info, (advance 1 w5). split; [done|].
  rewrite query_screen_size_outcome, Hbridge, Hcalls, Hquery in Hsize.
  simpl in Hsize. rewrite Hout in Hsize.
  rewrite (split_leading_separator _ _ _ Hdims) in Hsize.
  assert (PyStr.contains "Physical size:" ("Physical size: " +:+ dims) = true)
    as Hmarker by done.
  rewrite Hmarker in Hsize. simpl in Hsize. congruence.
Qed.

(** X6. The screen size fails on its own: it is ["unknown"] when its
    query raises, and absent when the query exits with a non-zero code or
    prints no ["Physical size:"]; the descriptor is returned in each
    case. *)
Theorem get_device_info_screen_size_failure (device_id : string) (w : World) :
  ∃ info w',
    get_device_info adb_path device_id w = (Ok (Info info), w') ∧
    match bridge w (5 + first_property_call device_id w)
            (size_query adb_path device_id) with
    | ProcRaise _ => screen_size info = Some "unknown"
    | Completed rc out _ =>
        if rc =? 0 then
          if PyStr.contains "Physical size:" (PyStr.strip out)
          then is_Some (screen_size info)
          else screen_size info = None
        else screen_size info = None
    end.
Proof.
  destruct (get_device_info_run device_id w)
    as (info & w5 & Hrun & _ & Hbridge & Hcalls & Hsize).
  exists info, (advance 1 w5). split; [done|].
  rewrite query_screen_size_outcome, Hbridge, Hcalls in Hsize.
  destruct (bridge _ _ _) as [rc out err|e]; [|congruence].
  destruct (rc =? 0); [|congruence].
  destruct (PyStr.contains _ _); [|congruence].
  destruct (_ !! _); injection Hsize as Hsize; rewrite <- Hsize; by eexists.
Qed.

End ScreenSize.

(** ** Registration and the device manager *)

Section ManagerFacts.

Variable adb_path : string.

(** X7. [install_gbox_agent] reports success whenever the package query
    returns, whatever its exit code and whether or not the package is
    listed; it reports failure only when the query raises.  It never
    raises. *)
Theorem install_gbox_agent_reports (device_id : string) (w : World) :
  ∃ installed,
    install_gbox_agent adb_path device_id w = (Ok installed, advance 1 w) ∧
    match bridge w (bridge_calls w) (package_query adb_path device_id) with
    | Completed _ _ _ => installed = true
    | ProcRaise _ => installed = false
    end.
Proof.
  eexists. split; [apply install_gbox_agent_outcome|].
  by destruct (bridge _ _ _).
Qed.

(** X8. When the package query raises, [register_with_gbox] returns
    [None], raises nothing, reads no clock and leaves the registry as it
    was. *)
Theorem register_with_gbox_install_failure
    (device_id gbox_api_key : string) (s : RegState) :
  completes (bridge (reg_world s) (bridge_calls (reg_world s))
               (package_query adb_path device_id)) = false →
  ∃ s',
    register_with_gbox adb_path device_id gbox_api_key s = (Ok None, s') ∧
    registered_devices s' = registered_devices s ∧
    clock_reads (reg_world s') = clock_reads (reg_world s).
Proof.
  intros Hraises. rewrite register_with_gbox_outcome, Hraises.
  by eexists.
Qed.

(** X9. After a registration that returns a session id,
    [get_registration_status] for that device gives the record holding
    that id with status ["registered"], and gives for every other device
    what it gave before. *)
Theorem register_then_status
    (device_id gbox_api_key : string) (s : RegState) :
  completes (bridge (reg_world s) (bridge_calls (reg_world s))
               (package_query adb_path device_id)) = true →
  ∃ id s' record,
    register_with_gbox adb_path device_id gbox_api_key s = (Ok (Some id), s') ∧
    fst (get_registration_status device_id s') = Ok (Some record) ∧
    gbox_device_id record = id ∧
    status record = "registered" ∧
    ∀ other, other ≠ device_id →
      fst (get_registration_status other s')
      = fst (get_registration_status other s).
Proof.
  intros Hreturns. rewrite register_with_gbox_outcome, Hreturns.
  eexists _, _, _. split; [done|].
  unfold get_registration_status, gets. simpl.
  rewrite lookup_insert_eq. repeat split.
  intros other Hother. by rewrite lookup_insert_ne.
Qed.

(** The session id is never the empty string. *)
Lemma session_id_truthy device_id now :
  PyStr.truthy (session_id device_id now) = true.
Proof. done. Qed.

(** [register_with_gbox] raises nothing; a returned id is non-empty and
    stored, and without a returned id the registry is unchanged. *)
Lemma register_with_gbox_total device_id gbox_api_key s :
  ∃ r s',
    register_with_gbox adb_path device_id gbox_api_key s = (Ok r, s') ∧
    match r with
    | Some id =>
        PyStr.truthy id = true ∧
        ∃ record, registered_devices s' !! device_id = Some record ∧
                  gbox_device_id record = id ∧
                  ∀ other, other ≠ device_id →
                    registered_devices s' !! other = registered_devices s !! other
    | None => registered_devices s' = registered_devices s
    end.
Proof.
  rewrite register_with_gbox_outcome.
  destruct (completes _); eexists _, _; (split; [done|]); [|done].
  split; [done|]. simpl. eexists. rewrite lookup_insert_eq.
  repeat split. intros other Hother. by rewrite lookup_insert_ne.
Qed.

Lemma get_connected_devices_total w :
  ∃ devices w', get_connected_devices adb_path w = (Ok devices, w').
Proof.
  unfold get_connected_devices, try_except, bind.
  rewrite subprocess_run_outcome.
  destruct (bridge _ _ _) as [rc out err|e]; simpl; [|by eexists _, _].
  destruct (rc =? 0); simpl; [|by eexists _, _].
  destruct (scan_lines_adds_ready adb_path
              (tail (PyStr.split NL (PyStr.strip out))) [] (advance 1 w))
    as [(e & w2 & ->)|(new & w2 & -> & _)]; by eexists _, _.
Qed.

Lemma get_device_info_total device_id w :
  ∃ info w',
    get_device_info adb_path device_id w = (Ok (Info info), w') ∧
    info_id info = device_id.
Proof.
  destruct (get_device_info_run adb_path device_id w)
    as (info & w5 & Hrun & Hid & _).
  by eexists _, _.
Qed.

End ManagerFacts.

Section ManagerSetup.

Variable adb_path : string.

Lemma reg_in_world_run {A} (m : M World A) (s : RegState) :
  reg_in_world m s =
    (fst (m (reg_world s)),
     {| registered_devices := registered_devices s;
        reg_world := snd (m (reg_world s)) |}).
Proof. unfold reg_in_world, zoom. by destruct (m (reg_world s)). Qed.

Lemma filter_none_matches (emulator_id : string) (devices : list ConnectedDevice) :
  Forall (λ d, dev_id d ≠ emulator_id) devices →
  filter (λ d, dev_id d = emulator_id) devices = [].
Proof.
  induction 1 as [|d devices Hd _ IH]; [done|].
  by rewrite filter_cons, decide_False.
Qed.

(** X10. When the device asked for is not among the connected devices,
    [setup_emulator_for_gbox] returns [None] right after the listing: the
    device is neither described nor registered, and the registry is as it
    was. *)
Theorem setup_emulator_not_connected
    (gbox_api_key emulator_id : string) (s : RegState)
    (devices : list ConnectedDevice) (w' : World) :
  get_connected_devices adb_path (reg_world s) = (Ok devices, w') →
  Forall (λ d, dev_id d ≠ emulator_id) devices →
  setup_emulator_for_gbox adb_path gbox_api_key emulator_id s
    = (Ok None, {| registered_devices := registered_devices s;
                   reg_world := w' |}).
Proof.
  intros Hlist Hnone.
  unfold setup_emulator_for_gbox, try_except, bind.
  rewrite reg_in_world_run, Hlist. simpl.
  by rewrite (filter_none_matches _ _ Hnone).
Qed.

(** X11. [setup_emulator_for_gbox] raises nothing.  When it returns a
    session id, the registry holds a record with that id for the device;
    when it returns [None], the registry is as it was. *)
Theorem setup_emulator_for_gbox_result
    (gbox_api_key emulator_id : string) (s : RegState) :
  ∃ r s',
    setup_emulator_for_gbox adb_path gbox_api_key emulator_id s = (Ok r, s') ∧
    match r with
    | Some id =>
        ∃ record, registered_devices s' !! emulator_id = Some record ∧
                  gbox_device_id record = id
    | None => registered_devices s' = registered_devices s
    end.
Proof.
  unfold setup_emulator_for_gbox, try_except, bind.
  rewrite reg_in_world_run.
  destruct (get_connected_devices_total adb_path (reg_world s))
    as (devices & w1 & ->). simpl.
  destruct (filter _ devices) as [|emulator_device _]; [by eexists _, _|].
  rewrite reg_in_world_run. simpl.
  destruct (get_device_info_total adb_path emulator_id w1)
    as (info & w2 & -> & _). simpl.
  destruct (register_with_gbox_total adb_path emulator_id gbox_api_key
              {| registered_devices := registered_devices s; reg_world := w2 |})
    as ([id|] & s3 & -> & Hresult); simpl.
  - destruct Hresult as (-> & record & Hstored & Hid & _).
    eexists _, _. split; [done|]. by exists record.
  - by eexists _, _.
Qed.

(** The loop of [get_available_devices]: one entry per connected device,
    in order, after the entries already collected. *)
Lemma available_devices_loop_run connected :
  ∀ available s,
  ∃ new s',
    available_devices_loop adb_path connected available s
      = (Ok (available ++ new)%list, s') ∧
    registered_devices s' = registered_devices s ∧
    map (λ a, info_result_id (avail_info a)) new = map dev_id connected ∧
    Forall (λ a, avail_connected a = true ∧
                 (∃ info, avail_info a = Info info) ∧
                 avail_registration a
                 = registered_devices s !! info_result_id (avail_info a)) new.
Proof.
  induction connected as [|device rest IH]; intros available s.
  - exists [], s. by rewrite app_nil_r.
  - cbn [available_devices_loop]. unfold bind at 1.
    rewrite reg_in_world_run.
    destruct (get_device_info_total adb_path (dev_id device) (reg_world s))
      as (info & w1 & -> & Hid). simpl.
    unfold bind, get_registration_status, gets. simpl.
    edestruct IH as (new & s' & -> & Hregistry & Hids & Hentries).
    eexists (_ :: new), s'. rewrite <- app_assoc. split; [done|].
    simpl in *. split; [done|]. split; [by rewrite Hid, Hids|].
    apply Forall_cons. split; [|done].
    simpl. rewrite Hid. split; [done|]. split; [by eexists|done].
Qed.

(** X12. [get_available_devices] raises nothing and leaves the registry
    as it was.  It returns one entry per connected device, in the order of
    the listing, each marked connected, each holding the descriptor of
    that device and what the registry holds for it. *)
Theorem get_available_devices_entries (s : RegState) :
  ∃ connected w1 available s',
    get_connected_devices adb_path (reg_world s) = (Ok connected, w1) ∧
    get_available_devices adb_path s = (Ok available, s') ∧
    registered_devices s' = registered_devices s ∧
    map (λ a, info_result_id (avail_info a)) available = map dev_id connected ∧
    Forall (λ a, avail_connected a = true ∧
                 (∃ info, avail_info a = Info info) ∧
                 avail_registration a
                 = registered_devices s !! info_result_id (avail_info a))
           available.
Proof.
  destruct (get_connected_devices_total adb_path (reg_world s))
    as (connected & w1 & Hlist).
  unfold get_available_devices, bind. rewrite reg_in_world_run, Hlist. simpl.
  destruct (available_devices_loop_run connected []
              {| registered_devices := registered_devices s; reg_world := w1 |})
    as (new & s' & Hloop & Hregistry & Hids & Hentries).
  exists connected, w1, new, s'. by rewrite Hloop.
Qed.

End ManagerSetup.

(** ** More on the task executor and the agent *)

Section ExecutorMore.

Context {C : Type} `{DeviceController C}.

Lemma runs_script_ret : runs_script (C := C) [] (ret true).
Proof. intros s. exists 0%nat, s. rewrite app_nil_r. split; [done|]. by right. Qed.

Lemma runs_script_invoke {A} op (m : M (C * World) A) script k :
  runs_script script k → runs_script (op :: script) (invoke op m ;;; k).
Proof.
  intros Hk s. unfold bind, invoke.
  destruct (m (device_controller s, world s)) as [[a|e] [c w]].
  - match goal with |- context [k ?s1] => destruct (Hk s1) as (n & s' & Hops & Hrun) end.
    exists (S n), s'. simpl in *. rewrite Hops, <- app_assoc. split; [done|].
    destruct Hrun as [[e He]|[Hok ->]]; [left; by exists e|by right].
  - eexists 1%nat, _. split; last (left; by eexists). done.
Qed.

Lemma runs_script_sleep script k :
  runs_script (C := C) script k →
  runs_script script (in_world (time_sleep 1) ;;; k).
Proof.
  intros Hk s. unfold bind, in_world, zoom, time_sleep, ret.
  match goal with |- context [k ?s1] => destruct (Hk s1) as (n & s' & Hops & Hrun) end.
  by exists n, s'.
Qed.

(** Every handler runs its script. *)
Lemma dispatch_runs_script name params :
  runs_script (C := C) (handler_script name) (dispatch name params).
Proof.
  unfold dispatch, handler_script, _execute_recipe_task,
    _execute_calendar_task, _execute_generic_task.
  repeat case_match;
    repeat first [ apply runs_script_ret
                 | apply runs_script_invoke
                 | apply runs_script_sleep ].
Qed.

(** X13. A task fails only by an exception.  For every controller, task
    name and parameters, the result of [execute_task] has [success = true]
    exactly when it has no error message; what the controller operations
    return (for instance [False]) has no influence on it. *)
Theorem execute_task_success_iff_no_error
    (name : string) (task_params : gmap string pyval) (s : ExecState C) :
  ∃ r s',
    execute_task name task_params s = (Ok r, s') ∧
    (success r = true ↔ error_message r = None) ∧
    (success r = false ↔ is_Some (error_message r)).
Proof.
  eexists _, _. split; [apply execute_task_run|].
  destruct (dispatch_runs_script name task_params (handler_start s))
    as (n & s1 & _ & [[e ->]|[-> _]]); simpl.
  - split; split; first [done | by eexists].
  - split; split; first [done | by intros [? ?]].
Qed.

(** X14. The controller operations a call of [execute_task] invokes are
    an initial part of the script of its handler, in order; when the
    result reports success, they are the whole script. *)
Theorem execute_task_operations
    (name : string) (task_params : gmap string pyval) (s : ExecState C) :
  ∃ r s' n,
    execute_task name task_params s = (Ok r, s') ∧
    device_ops s' = (device_ops s ++ take n (handler_script name))%list ∧
    if success r
    then device_ops s' = (device_ops s ++ handler_script name)%list
    else is_Some (error_message r).
Proof.
  destruct (dispatch_runs_script name task_params (handler_start s))
    as (n & s1 & Hops & Hrun).
  eexists _, _, n. split; [apply execute_task_run|].
  assert (device_ops (handler_start s) = device_ops s) as Hstart by done.
  destruct Hrun as [[e Hrun]|[Hrun ->]]; rewrite Hrun; simpl;
    rewrite Hops, Hstart; (split; [done|]); [by eexists|].
  by rewrite firstn_all.
Qed.

End ExecutorMore.

(** ** The mock controller *)

Lemma dispatch_on_mock name params (s : ExecState MockDeviceController) :
  dispatch name params s =
    (Ok true,
     {| device_controller := device_controller s;
        task_history := task_history s;
        world := world s;
        device_ops := (device_ops s ++ handler_script name)%list |}).
Proof.
  unfold dispatch, handler_script.
  destruct (String.eqb name "RecipeAddMultipleRecipes");
    [|destruct (String.eqb name "SimpleCalendarAddOneEvent")].
  - unfold _execute_recipe_task, bind, invoke, in_world, zoom. simpl.
    by rewrite <- !app_assoc.
  - unfold _execute_calendar_task, bind, invoke, in_world, zoom. simpl.
    by rewrite <- !app_assoc.
  - unfold _execute_generic_task, ret. rewrite app_nil_r. by destruct s.
Qed.

(** X15. On the mock controller every task succeeds: whatever the name
    and the parameters, the result has [success = true] and no error
    message, the whole script of the handler has been invoked, and the
    clock has been read exactly twice. *)
Theorem execute_task_on_mock
    (name : string) (task_params : gmap string pyval)
    (s : ExecState MockDeviceController) :
  ∃ r s',
    execute_task name task_params s = (Ok r, s') ∧
    task_name r = name ∧
    success r = true ∧
    error_message r = None ∧
    device_ops s' = (device_ops s ++ handler_script name)%list ∧
    world s' = tick 2 (world s).
Proof.
  eexists _, _. split; [apply execute_task_run|].
  rewrite dispatch_on_mock. simpl. done.
Qed.

(** X16. On the mock controller the result's timestamp is the clock
    reading taken before the handler and its execution time is the next
    reading minus that one; so the execution time is not negative when the
    clock does not go back between the two readings. *)
Theorem execute_task_on_mock_timing
    (name : string) (task_params : gmap string pyval)
    (s : ExecState MockDeviceController) :
  (clock (world s) (clock_reads (world s))
   <= clock (world s) (S (clock_reads (world s))))%Q →
  ∃ r s',
    execute_task name task_params s = (Ok r, s') ∧
    timestamp r = clock (world s) (clock_reads (world s)) ∧
    execution_time r
    = (clock (world s) (S (clock_reads (world s)))
       - clock (world s) (clock_reads (world s)))%Q ∧
    (0 <= execution_time r)%Q.
Proof.
  intros Hclock.
  eexists _, _. split; [apply execute_task_run|].
  rewrite dispatch_on_mock. simpl. repeat split.
  by apply Qle_minus_iff in Hclock.
Qed.

(** ** The agent *)

Section AgentFacts.

Context {C : Type} `{DeviceController C}.

Lemma agent_run_tasks_history calls :
  ∀ a : CustomAgent C,
  ∃ rs a',
    agent_run_tasks calls a = (Ok rs, a') ∧
    agent_id a' = agent_id a ∧
    task_history (task_executor a')
    = (task_history (task_executor a) ++ rs)%list ∧
    length rs = length calls.
Proof.
  induction calls as [|[name params] rest IH]; intros a.
  - exists [], a. by rewrite app_nil_r.
  - cbn [agent_run_tasks]. unfold bind at 1, agent_run_task, in_executor, zoom,
      run_task.
    destruct (execute_task_appends name (default ∅ params) (task_executor a))
      as (r & e1 & -> & Hhist & _).
    destruct (IH {| agent_id := agent_id a; task_executor := e1 |})
      as (rs & a' & Hrest & Hid & Hhist' & Hlen).
    exists (r :: rs), a'. unfold bind. rewrite Hrest. simpl in *.
    split; [done|]. split; [done|].
    split; [by rewrite Hhist', Hhist, <- app_assoc|by rewrite Hlen].
Qed.

(** X17. After any sequence of [run_task] calls on a new agent,
    [get_status] reports as [tasks_executed] the number of calls made,
    whether they succeeded or not; it reports the agent's id, the status
    ["active"] and [device_connected = True] whatever the controller is,
    and it leaves the history untouched. *)
Theorem get_status_after_tasks
    (device_controller : C) (w : World)
    (calls : list (string * option (gmap string pyval))) :
  ∃ rs a' st a'',
    agent_run_tasks calls (CustomAgent_init device_controller w) = (Ok rs, a') ∧
    get_status a' = (Ok st, a'') ∧
    tasks_executed st = length calls ∧
    device_connected st = true ∧
    status_text st = "active" ∧
    status_agent_id st = agent_id (CustomAgent_init device_controller w) ∧
    task_history (task_executor a'') = rs.
Proof.
  destruct (agent_run_tasks_history calls (CustomAgent_init device_controller w))
    as (rs & a' & Hrun & Hid & Hhist & Hlen).
  exists rs, a'. eexists _, _. split; [done|].
  unfold get_status, bind, get, in_executor, in_world, zoom. simpl.
  split; [done|]. simpl. rewrite Hhist, Hid. simpl. by rewrite Hlen.
Qed.

(** X18. The id of an agent is fixed by the whole second of its creation:
    two agents have the same id exactly when the clock readings of their
    creation fall in the same whole second. *)
Theorem agent_id_same_second (c1 c2 : C) (w1 w2 : World) :
  agent_id (CustomAgent_init c1 w1) = agent_id (CustomAgent_init c2 w2) ↔
  int_of_time (clock w1 (clock_reads w1)) = int_of_time (clock w2 (clock_reads w2)).
Proof.
  unfold CustomAgent_init, str_of_int. simpl. split.
  - intros Heq. apply (inj (String.app _)) in Heq.
    by apply (inj pretty) in Heq.
  - by intros ->.
Qed.

End AgentFacts.

(** ** The operations of the remote controllers *)

Section GBOXOperationFacts.

(** A [try] block whose handler returns a default value returns either
    what its body returns or that default. *)
Lemma try_except_default {S A} (body : M S A) (d : A) (s : S) :
  ∃ a s',
    try_except body (λ _, ret d) s = (Ok a, s') ∧
    (body s = (Ok a, s') ∨ (a = d ∧ ∃ e, body s = (Raise e, s'))).
Proof.
  unfold try_except. destruct (body s) as [[a|e] s'].
  - exists a, s'. split; [done|]. by left.
  - exists d, s'. split; [done|]. right. split; [done|]. by exists e.
Qed.

Lemma self_attr_run name (s : Controller) :
  self_attr name s =
    match ctl_self s !! name with
    | Some v => (Ok v, s)
    | None =>
        (Raise (Exn "AttributeError"
                    ("object has no attribute '" +:+ name +:+ "'")), s)
    end.
Proof. unfold self_attr, bind, get. simpl. by destruct (_ !! _). Qed.

(** X19. On a controller whose [device] is [None], every operation
    returns its default ([False], the empty text, [None], the empty
    dictionary, not connected) and the remote device is not called. *)
Theorem gbox_operations_without_device
    (local : bool) (s : Controller) (x y ex ey : Z) (text : string) (duration : Q) :
  ctl_self s !! "device" = Some ANone →
  gbox_click x y s = (Ok false, s) ∧
  gbox_type_text text s = (Ok false, s) ∧
  gbox_swipe x y ex ey duration s = (Ok false, s) ∧
  gbox_get_screen_text s = (Ok (RText ""), s) ∧
  gbox_take_screenshot s = (Ok RNone, s) ∧
  gbox_is_connected s = (Ok (RBool false), s) ∧
  gbox_get_device_info local s = (Ok ∅, s).
Proof.
  intros Hdevice.
  unfold gbox_click, gbox_type_text, gbox_swipe, gbox_get_screen_text,
    gbox_take_screenshot, gbox_is_connected, gbox_get_device_info,
    try_except, bind.
  rewrite self_attr_run, Hdevice. simpl. done.
Qed.

(** X20. No exception leaves [click], [type_text], [swipe],
    [get_screen_text], [take_screenshot] or [get_device_info], whatever
    the instance holds and whatever the remote device does. *)
Theorem gbox_operations_never_raise
    (local : bool) (s : Controller) (x y ex ey : Z) (text : string) (duration : Q) :
  (∃ b s', gbox_click x y s = (Ok b, s')) ∧
  (∃ b s', gbox_type_text text s = (Ok b, s')) ∧
  (∃ b s', gbox_swipe x y ex ey duration s = (Ok b, s')) ∧
  (∃ v s', gbox_get_screen_text s = (Ok v, s')) ∧
  (∃ v s', gbox_take_screenshot s = (Ok v, s')) ∧
  (∃ info s', gbox_get_device_info local s = (Ok info, s')).
Proof.
  unfold gbox_click, gbox_type_text, gbox_swipe, gbox_get_screen_text,
    gbox_take_screenshot, gbox_get_device_info.
  repeat split;
    match goal with
    | |- ∃ a s', try_except ?body (λ _, ret ?d) ?s = _ =>
        destruct (try_except_default body d s) as (a & s' & Hrun & _);
        by exists a, s'
    end.
Qed.

Lemma device_call_run h call (s : Controller) :
  device_call (ADevice h) call s =
    (match remote s (length (remote_calls s)) call with
     | Returns v => Ok v
     | Raises e => Raise e
     end,
     {| ctl_self := ctl_self s; remote := remote s;
        remote_calls := remote_calls s ++ [call] |}).
Proof. unfold device_call. by destruct (remote _ _ _). Qed.

(** X21. On a controller bound to a device, [click], [type_text] and
    [swipe] call the device exactly once, with their arguments, and return
    [True] when that call returns (whatever it returns) and [False] when
    it raises. *)
Theorem gbox_actions_report_the_call
    (h : nat) (s : Controller) (x y ex ey : Z) (text : string) (duration : Q) :
  ctl_self s !! "device" = Some (ADevice h) →
  let performed call :=
    (Ok match remote s (length (remote_calls s)) call with
        | Returns _ => true
        | Raises _ => false
        end,
     {| ctl_self := ctl_self s; remote := remote s;
        remote_calls := remote_calls s ++ [call] |}) in
  gbox_click x y s = performed (CallClick x y) ∧
  gbox_type_text text s = performed (CallTypeText text) ∧
  gbox_swipe x y ex ey duration s = performed (CallSwipe x y ex ey duration).
Proof.
  intros Hdevice performed. subst performed.
  unfold gbox_click, gbox_type_text, gbox_swipe, try_except, bind.
  rewrite self_attr_run, Hdevice. simpl.
  repeat split; by destruct (remote _ _ _).
Qed.

(** X22. [is_connected] is the one operation without a handler: on a
    controller bound to a device, an exception of the remote call comes
    out of it as it is. *)
Theorem gbox_is_connected_lets_exceptions_through
    (h : nat) (s : Controller) (e : exn) :
  ctl_self s !! "device" = Some (ADevice h) →
  remote s (length (remote_calls s)) CallIsConnected = Raises e →
  ∃ s', gbox_is_connected s = (Raise e, s').
Proof.
  intros Hdevice Hraises.
  unfold gbox_is_connected, bind. rewrite self_attr_run, Hdevice.
  rewrite device_call_run, Hraises. by eexists.
Qed.

(** X23. [get_screen_text] always returns something that has a length:
    the answer of the device when that is a text (or bytes), and the empty
    text in every other case, also when the device answers with a value
    that has no length. *)
Theorem gbox_get_screen_text_sized (s : Controller) :
  ∃ v s',
    gbox_get_screen_text s = (Ok v, s') ∧
    sized v = true ∧
    match ctl_self s !! "device" with
    | Some (ADevice _) =>
        match remote s (length (remote_calls s)) CallGetScreenText with
        | Returns answer => v = if sized answer then answer else RText ""
        | Raises _ => v = RText ""
        end
    | _ => v = RText ""
    end.
Proof.
  unfold gbox_get_screen_text, try_except, bind.
  rewrite self_attr_run.
  destruct (ctl_self s !! "device") as [[| |?|h]|]; simpl;
    try (by eexists _, _).
  - destruct (PyStr.truthy _); by eexists _, _.
  - destruct (remote _ _ _) as [[]|]; simpl; by eexists _, _.
Qed.

End GBOXOperationFacts.

(** ** The integration layer *)

Lemma new_GBOXDeviceController_raises device_id gbox_api_key s :
  ∃ e, new_GBOXDeviceController device_id gbox_api_key s = (Raise e, s).
Proof.
  unfold new_GBOXDeviceController, instantiate.
  rewrite GBOXDeviceController_abstractmethods. by eexists.
Qed.

Lemma new_GBOXLocalDeviceController_raises device_id gbox_api_key s :
  ∃ e, new_GBOXLocalDeviceController device_id gbox_api_key s = (Raise e, s).
Proof.
  unfold new_GBOXLocalDeviceController, instantiate.
  rewrite GBOXLocalDeviceController_abstractmethods. by eexists.
Qed.

(** X24. [setup_gbox_device] never succeeds: for every bridge path, key,
    device id and state it returns [False], it leaves [custom_agent] as it
    was and it makes no SDK call, because the controller it would hand to
    the agent cannot be constructed. *)
Theorem setup_gbox_device_always_fails
    (adb_path gbox_api_key device_id : string) (i : Integration) :
  ∃ i',
    setup_gbox_device adb_path gbox_api_key device_id i = (Ok false, i') ∧
    custom_agent i' = custom_agent i ∧
    int_process i' = int_process i.
Proof.
  unfold setup_gbox_device, try_except, bind at 1, in_registry, zoom.
  destruct (setup_emulator_for_gbox _ _ _ _) as [[[g|]|e] r];
    [|by eexists..].
  destruct (PyStr.truthy g); cbn [negb]; [|by eexists].
  unfold bind at 1.
  assert (∀ (controller : M PyState (gmap string attrval)) j,
            (∃ e, controller (int_process j) = (Raise e, int_process j)) →
            ∃ e, (c <- in_process controller ;; set_custom_agent c) j
                 = (Raise e, j)) as Hfails.
  { intros controller j [e He]. unfold bind, in_process, zoom.
    rewrite He. exists e. by destruct j. }
  destruct (PyStr.startswith _ _).
  - edestruct Hfails as [e ->];
      [apply new_GBOXLocalDeviceController_raises|]. by eexists.
  - edestruct Hfails as [e ->];
      [apply new_GBOXDeviceController_raises|]. by eexists.
Qed.

Section DeviceStatusFacts.

Variable adb_path device_id : string.

Lemma find_by_id (available : list AvailableDevice) :
  match List.find (λ a, String.eqb (info_result_id (avail_info a)) device_id)
                  available with
  | Some a => a ∈ available ∧ info_result_id (avail_info a) = device_id
  | None => device_id ∉ map (λ a, info_result_id (avail_info a)) available
  end.
Proof.
  induction available as [|a rest IH]; simpl; [apply not_elem_of_nil|].
  destruct (String.eqb _ _) eqn:Hid.
  - apply String.eqb_eq in Hid. split; [apply list_elem_of_here|done].
  - apply String.eqb_neq in Hid.
    destruct (List.find _ rest) as [found|].
    + destruct IH as [Hin Hfound]. split; [by apply list_elem_of_further|done].
    + apply not_elem_of_cons. by split.
Qed.

(** X25. [get_device_status] raises nothing, never returns its error
    form and leaves the registry as it was.  It answers "connected", with
    what the registry holds for the device, exactly when the device is
    among the connected devices, and "Device not found" otherwise. *)
Theorem get_device_status_found_iff_connected (s : RegState) :
  ∃ connected w1 st s',
    get_connected_devices adb_path (reg_world s) = (Ok connected, w1) ∧
    get_device_status adb_path device_id s = (Ok st, s') ∧
    registered_devices s' = registered_devices s ∧
    if bool_decide (device_id ∈ map dev_id connected)
    then ∃ ty model android_version size,
           st = StatusConnected device_id ty model android_version
                  (registered_devices s !! device_id) size
    else st = StatusNotFound device_id.
Proof.
  destruct (get_connected_devices_total adb_path (reg_world s))
    as (connected & w1 & Hlist).
  destruct (available_devices_loop_run adb_path connected []
              {| registered_devices := registered_devices s; reg_world := w1 |})
    as (available & s' & Hloop & Hregistry & Hids & Hentries).
  exists connected, w1. unfold get_device_status, try_except, bind at 1.
  unfold get_available_devices, bind. rewrite reg_in_world_run, Hlist. simpl.
  rewrite Hloop. simpl.
  pose proof (find_by_id available) as Hfind. rewrite Hids in Hfind.
  destruct (List.find _ available) as [a|].
  - destruct Hfind as [Hin Hid].
    eexists _, s'. split; [done|]. split; [done|]. split; [done|].
    rewrite bool_decide_eq_true_2.
    + rewrite Forall_forall in Hentries.
      destruct (Hentries a Hin) as (_ & _ & ->). rewrite Hid.
      by eexists _, _, _, _.
    + rewrite <- Hids. apply list_elem_of_fmap. by exists a.
  - eexists _, s'. split; [done|]. split; [done|]. split; [done|].
    by rewrite bool_decide_eq_false_2.
Qed.

End DeviceStatusFacts.

Section MultipleTasks.

Variable Bench : Type.
Variable run_benchmark_task : string → Bench → BenchResult * Bench.

Lemma run_tasks_loop_run task_names :
  ∀ collected successful b,
  ∃ new b',
    run_tasks_loop Bench run_benchmark_task task_names collected successful b
      = ((collected ++ new)%list,
         (successful + length (filter (λ r, bench_success r = true) new))%nat,
         b') ∧
    length new = length task_names.
Proof.
  induction task_names as [|task_name rest IH]; intros collected successful b.
  - exists [], b. simpl. by rewrite app_nil_r, Nat.add_0_r.
  - simpl. destruct (run_benchmark_task task_name b) as [result b1].
    edestruct IH as (new & b' & -> & Hlen).
    exists (result :: new), b'. rewrite <- app_assoc. simpl.
    rewrite filter_cons. split; [|by rewrite Hlen].
    destruct (bench_success result) eqn:Hsuccess.
    + rewrite decide_True by done. simpl. do 2 f_equal. lia.
    + by rewrite decide_False by done.
Qed.

Lemma slice_to_length {A} (k : Z) (l : list A) :
  Z.of_nat (length (slice_to k l)) =
    if 0 <=? k then Z.min k (Z.of_nat (length l))
    else Z.max 0 (Z.of_nat (length l) + k).
Proof.
  unfold slice_to. destruct (0 <=? k) eqn:Hk; rewrite length_take; lia.
Qed.


End MultipleTasks.

(** ** Verification results *)

Lemma passed_all_iff (results : list (string * bool)) :
  Nat.eqb (length (filter (λ item, snd item = true) results)) (length results)
  = forallb snd results.
Proof.
  induction results as [|[name [|]] rest IH]; [done| |].
  - rewrite filter_cons, decide_True by done. simpl. exact IH.
  - rewrite filter_cons, decide_False by done. simpl.
    apply Nat.eqb_neq.
    pose proof (length_filter (λ item : string * bool, snd item = true) rest).
    lia.
Qed.

(** X27. [print_results] raises [ZeroDivisionError] on an empty result
    dictionary; on any other it returns [True] exactly when every test
    passed. *)
Theorem print_results_verdict {St : Type}
    (challenge_name : string) (results : list (string * bool)) (s : St) :
  match results with
  | [] =>
      ∃ e, print_results challenge_name results s = (Raise e, s) ∧
           exn_type e = "ZeroDivisionError"
  | _ :: _ =>
      print_results challenge_name results s = (Ok (forallb snd results), s)
  end.
Proof.
  destruct results as [|item rest]; [by eexists|].
  unfold print_results.
  change (length (item :: rest)) with (S (length rest)) at 2.
  cbv iota beta. by rewrite passed_all_iff.
Qed.

(** ** Instances of the statements above *)

(** A screen-size answer without the blank. *)
Lemma get_device_info_screen_size_without_blank_witness :
  let w := stub_world (size_bridge empty_listing "Physical size:1080x2400")
                      second_clock in
  bridge w (5 + first_property_call "R58M42ABCDE" w)
           (size_query "adb" "R58M42ABCDE")
    = Completed 0 "Physical size:1080x2400" "" ∧
  PyStr.contains "Physical size:" (PyStr.strip "Physical size:1080x2400") = true ∧
  PyStr.contains "Physical size: " (PyStr.strip "Physical size:1080x2400") = false ∧
  ∃ info w',
    get_device_info "adb" "R58M42ABCDE" w = (Ok (Info info), w') ∧
    screen_size info = Some "unknown".
Proof.
  split; [reflexivity|]. split; [by vm_compute|]. split; [by vm_compute|].
  apply (get_device_info_screen_size_without_blank "adb" "R58M42ABCDE" _
           "Physical size:1080x2400" ""); by vm_compute.
Defined.

(** The usual screen-size answer, with its final newline. *)
Lemma get_device_info_screen_size_value_witness :
  let out := "Physical size: 1080x2400" +:+ NL in
  let w := stub_world (size_bridge empty_listing out) second_clock in
  bridge w (5 + first_property_call "R58M42ABCDE" w)
           (size_query "adb" "R58M42ABCDE")
    = Completed 0 out "" ∧
  PyStr.strip out = "Physical size: " +:+ "1080x2400" ∧
  PyStr.contains "Physical size: " "1080x2400" = false ∧
  ∃ info w',
    get_device_info "adb" "R58M42ABCDE" w = (Ok (Info info), w') ∧
    screen_size info = Some "1080x2400".
Proof.
  split; [reflexivity|]. split; [by vm_compute|]. split; [by vm_compute|].
  apply (get_device_info_screen_size_value "adb" "R58M42ABCDE" _
           ("Physical size: 1080x2400" +:+ NL) "" "1080x2400"); by vm_compute.
Defined.

(** A registration on a bridge that times out. *)
Lemma register_with_gbox_install_failure_witness :
  let s := DeviceRegistration_init (stub_world raising_bridge second_clock) in
  completes (bridge (reg_world s) (bridge_calls (reg_world s))
               (package_query "adb" "emulator-5554")) = false ∧
  ∃ s',
    register_with_gbox "adb" "emulator-5554" "key" s = (Ok None, s') ∧
    registered_devices s' = registered_devices s ∧
    clock_reads (reg_world s') = clock_reads (reg_world s).
Proof.
  split; [reflexivity|].
  apply (register_with_gbox_install_failure "adb" "emulator-5554" "key").
  reflexivity.
Defined.

(** A registration on a bridge that answers. *)
Lemma register_then_status_witness :
  let s := DeviceRegistration_init
             (stub_world (listing_bridge stub_listing "") second_clock) in
  completes (bridge (reg_world s) (bridge_calls (reg_world s))
               (package_query "adb" "emulator-5554")) = true ∧
  ∃ id s' record,
    register_with_gbox "adb" "emulator-5554" "key" s = (Ok (Some id), s') ∧
    fst (get_registration_status "emulator-5554" s') = Ok (Some record) ∧
    gbox_device_id record = id ∧
    status record = "registered" ∧
    ∀ other, other ≠ "emulator-5554" →
      fst (get_registration_status other s')
      = fst (get_registration_status other s).
Proof.
  split; [reflexivity|].
  apply (register_then_status "adb" "emulator-5554" "key"). reflexivity.
Defined.

(** Setting up ["emulator-5554"] on a bridge that lists no device. *)
Lemma setup_emulator_not_connected_witness :
  let s := DeviceRegistration_init
             (stub_world (listing_bridge empty_listing "") second_clock) in
  get_connected_devices "adb" (reg_world s) = (Ok [], advance 1 (reg_world s)) ∧
  Forall (λ d, dev_id d ≠ "emulator-5554") [] ∧
  setup_emulator_for_gbox "adb" "key" "emulator-5554" s
    = (Ok None, {| registered_devices := registered_devices s;
                   reg_world := advance 1 (reg_world s) |}).
Proof.
  assert (get_connected_devices "adb"
            (stub_world (listing_bridge empty_listing "") second_clock)
          = (Ok [], advance 1
                      (stub_world (listing_bridge empty_listing "") second_clock)))
    as Hlist by reflexivity.
  split; [exact Hlist|]. split; [apply Forall_nil_2|].
  apply (setup_emulator_not_connected "adb" "key" "emulator-5554"
           (DeviceRegistration_init
              (stub_world (listing_bridge empty_listing "") second_clock))
           [] _ Hlist).
  apply Forall_nil_2.
Defined.

(** A task on the mock controller with a clock that advances by a second
    per reading. *)
Lemma execute_task_on_mock_timing_witness :
  let s := TaskExecutor_init MockDevice
             (stub_world (listing_bridge "" "") second_clock) in
  (clock (world s) (clock_reads (world s))
   <= clock (world s) (S (clock_reads (world s))))%Q ∧
  ∃ r s',
    execute_task "RecipeAddMultipleRecipes" ∅ s = (Ok r, s') ∧
    timestamp r = clock (world s) (clock_reads (world s)) ∧
    execution_time r
    = (clock (world s) (S (clock_reads (world s)))
       - clock (world s) (clock_reads (world s)))%Q ∧
    (0 <= execution_time r)%Q.
Proof.
  assert (second_clock 0 <= second_clock 1)%Q as Hclock.
  { unfold Qle. simpl. lia. }
  split; [exact Hclock|].
  apply (execute_task_on_mock_timing "RecipeAddMultipleRecipes" ∅). exact Hclock.
Defined.

(** The operations on a controller that has no device yet. *)
Lemma gbox_operations_without_device_witness :
  let s := unconnected_controller failing_remote in
  ctl_self s !! "device" = Some ANone ∧
  gbox_click 500 1200 s = (Ok false, s) ∧
  gbox_type_text "Test Recipe" s = (Ok false, s) ∧
  gbox_swipe 500 1200 500 400 (1 # 2) s = (Ok false, s) ∧
  gbox_get_screen_text s = (Ok (RText ""), s) ∧
  gbox_take_screenshot s = (Ok RNone, s) ∧
  gbox_is_connected s = (Ok (RBool false), s) ∧
  gbox_get_device_info true s = (Ok ∅, s).
Proof.
  split; [by vm_compute|].
  apply (gbox_operations_without_device true
           (unconnected_controller failing_remote)).
  by vm_compute.
Defined.

(** The actions on a controller whose device is unreachable. *)
Lemma gbox_actions_report_the_call_witness :
  let s := connected_controller failing_remote in
  ctl_self s !! "device" = Some (ADevice 1) ∧
  gbox_click 500 1200 s
    = (Ok false, {| ctl_self := ctl_self s; remote := remote s;
                    remote_calls := [CallClick 500 1200] |}) ∧
  gbox_type_text "Test Recipe" s
    = (Ok false, {| ctl_self := ctl_self s; remote := remote s;
                    remote_calls := [CallTypeText "Test Recipe"] |}) ∧
  gbox_swipe 500 1200 500 400 (1 # 2) s
    = (Ok false, {| ctl_self := ctl_self s; remote := remote s;
                    remote_calls := [CallSwipe 500 1200 500 400 (1 # 2)] |}).
Proof.
  split; [by vm_compute|].
  apply (gbox_actions_report_the_call 1 (connected_controller failing_remote)).
  by vm_compute.
Defined.

(** [is_connected] on a controller whose device is unreachable. *)
Lemma gbox_is_connected_lets_exceptions_through_witness :
  let s := connected_controller failing_remote in
  ctl_self s !! "device" = Some (ADevice 1) ∧
  remote s (length (remote_calls s)) CallIsConnected
    = Raises (Exn "ConnectionError" "device unreachable") ∧
  ∃ s', gbox_is_connected s
        = (Raise (Exn "ConnectionError" "device unreachable"), s').
Proof.
  split; [by vm_compute|]. split; [reflexivity|].
  apply (gbox_is_connected_lets_exceptions_through 1
           (connected_controller failing_remote)); by vm_compute.
Defined.

(** A task on a controller that refuses every operation still succeeds. *)
Example run_recipe_task_on_refusing_controller :
  let s := TaskExecutor_init RefusingDevice
             (stub_world (listing_bridge "" "") second_clock) in
  match run_task "RecipeAddMultipleRecipes" None s with
  | (Ok r, s') =>
      success r = true ∧
      error_message r = None ∧
      device_ops s'
        = [OpClick 500 1200; OpTypeText "Test Recipe"; OpClick 500 1400]
  | (Raise _, _) => False
  end.
Proof. vm_compute. by repeat split. Qed.
